(** * End-of-file newline checker: a shallow embedding of
    [tools/check_eof_newline.py] and the properties of its operations.

    The Python program is modelled as follows.
    - [bytes] objects are [list byte]; [str] objects are [string].
    - A [pathlib] path is the list of its parts; an absolute path starts
      with the part ["/"].
    - The file system seen through [open] and [shutil.copy2] is a finite
      map from paths to nodes (regular files with their contents and the
      access the process has to them, or directories).
    - What [os.walk] sees is a directory tree of names.
    - [fnmatch.fnmatch] belongs to the Python library and is a parameter of
      the functions that call it.
    - Code that prints, writes files, raises or calls [sys.exit] runs in a
      state-and-exception monad [M]. *)

From Stdlib Require Import ZArith Ascii Strings.Byte.
From stdpp Require Import base strings list gmap pretty sorting.

Local Open Scope string_scope.
Local Open Scope list_scope.

(** ** Bytes and strings *)

#[global] Instance byte_eq_decision : EqDecision byte := Byte.byte_eq_dec.

Definition bytes := list byte.

(** [b'\n'], [b'\r'] and [b'\x00']. *)
Definition LF : byte := x0a.
Definition CR : byte := x0d.
Definition NUL : byte := x00.

(** [content.endswith(suffixes)] for a tuple of suffixes. *)
Definition endswith (content : bytes) (suffixes : list bytes) : bool :=
  existsb (λ s, bool_decide (s `suffix_of` content)) suffixes.

(** The newline character inside printed text. *)
Definition nl : string := String (ascii_of_nat 10) "".

(** [s.rfind(c)]: index of the last occurrence of [c]. *)
Fixpoint rfind (c : ascii) (s : string) : option nat :=
  match s with
  | "" => None
  | String a s' =>
      match rfind c s' with
      | Some i => Some (S i)
      | None => if Ascii.eqb a c then Some 0 else None
      end
  end.

(** [s[:n]] and [s[n:]] for a non-negative [n]. *)
Fixpoint str_take (n : nat) (s : string) : string :=
  match n, s with
  | S n', String a s' => String a (str_take n' s')
  | _, _ => ""
  end.

Fixpoint str_drop (n : nat) (s : string) : string :=
  match n, s with
  | S n', String _ s' => str_drop n' s'
  | _, _ => s
  end.

(** [c in s] for a character [c]. *)
Fixpoint str_contains (c : ascii) (s : string) : bool :=
  match s with
  | "" => false
  | String a s' => Ascii.eqb a c || str_contains c s'
  end.

Definition startswith_char (c : ascii) (s : string) : bool :=
  match s with
  | String a _ => Ascii.eqb a c
  | "" => false
  end.

(** [s.lower()] on ASCII text. *)
Definition lower_ascii (a : ascii) : ascii :=
  let n := nat_of_ascii a in
  if (65 <=? n)%nat && (n <=? 90)%nat then ascii_of_nat (n + 32) else a.

Fixpoint lower (s : string) : string :=
  match s with
  | "" => ""
  | String a s' => String (lower_ascii a) (lower s')
  end.

(** [sep.join(parts)]. *)
Fixpoint join (sep : string) (parts : list string) : string :=
  match parts with
  | [] => ""
  | [x] => x
  | x :: rest => x +:+ sep +:+ join sep rest
  end.

(** ** Paths *)

Definition path := list string.

(** [p.name]: the final part, empty for the root and for the empty path. *)
Definition name (p : path) : string :=
  match p with
  | [] => ""
  | [r] => if String.eqb r "/" then "" else r
  | _ => List.last p ""
  end.

(** [p.suffix]: the text from the last dot of the name on, when that dot is
    neither the first nor the last character of the name. *)
Definition suffix_of_name (nm : string) : string :=
  match rfind "." nm with
  | Some i =>
      if (0 <? i)%nat && (i <? String.length nm - 1)%nat
      then str_drop i nm else ""
  | None => ""
  end.

Definition suffix (p : path) : string := suffix_of_name (name p).

(** [p / child]. *)
Definition joinpath (p : path) (child : string) : path := p ++ [child].

(** [p.parent]. *)
Definition parent (p : path) : path := removelast p.

(** [str(p)]. *)
Definition str_of_path (p : path) : string :=
  match p with
  | [] => "."
  | r :: rest => if String.eqb r "/" then "/" +:+ join "/" rest else join "/" p
  end.

(** Exceptions the program can raise. [OSError] covers [IOError], which is
    the same class in Python 3. *)
Inductive oserror := ENOENT | EACCES | EISDIR | ENOTDIR.

Inductive exn :=
  | OSError (e : oserror) (filename : path)
  | ValueError (msg : string)
  | SystemExit (code : Z).

(** [other.relative_to(base)]: strips [base] from the front, and raises
    [ValueError] when [base] is not a prefix. *)
Fixpoint strip_prefix (base p : path) : option path :=
  match base, p with
  | [], _ => Some p
  | b :: base', x :: p' => if String.eqb b x then strip_prefix base' p' else None
  | _ :: _, [] => None
  end.

Definition relative_to (p base : path) : exn + path :=
  match strip_prefix base p with
  | Some r => inr r
  | None =>
      inl (ValueError (str_of_path p +:+ " is not in the subpath of " +:+ str_of_path base))
  end.

(** [p.with_suffix(suffix)]. *)
Definition with_suffix (p : path) (sfx : string) : exn + path :=
  if str_contains "/" sfx then inl (ValueError ("Invalid suffix " +:+ sfx))
  else if (negb (String.eqb sfx "") && negb (startswith_char "." sfx)) || String.eqb sfx "."
  then inl (ValueError ("Invalid suffix " +:+ sfx))
  else
    let nm := name p in
    if String.eqb nm "" then inl (ValueError (str_of_path p +:+ " has an empty name"))
    else
      let old_suffix := suffix p in
      let nm' :=
        if String.eqb old_suffix "" then nm +:+ sfx
        else str_take (String.length nm - String.length old_suffix) nm +:+ sfx in
      inr (parent p ++ [nm']).

(** ** The file system *)

(** A regular file: its contents and whether the process may read and
    write it. *)
Record file := File { f_data : bytes; f_readable : bool; f_writable : bool }.

Inductive node :=
  | NFile (f : file)
  | NDir (writable : bool).

Abbreviation fs := (gmap path node).

(** [open(p, 'rb')] followed by reads: the contents, or the [OSError]. *)
Definition open_rb (st : fs) (p : path) : exn + bytes :=
  match st !! p with
  | None => inl (OSError ENOENT p)
  | Some (NDir _) => inl (OSError EISDIR p)
  | Some (NFile f) => if f_readable f then inr (f_data f) else inl (OSError EACCES p)
  end.

(** [open(p, 'wb')] followed by [write(content)]: an existing file is
    truncated and keeps its mode; a missing one is created in its parent
    directory. *)
Definition open_wb (st : fs) (p : path) (content : bytes) : exn + fs :=
  match st !! p with
  | Some (NDir _) => inl (OSError EISDIR p)
  | Some (NFile f) =>
      if f_writable f
      then inr (<[p := NFile (File content (f_readable f) true)]> st)
      else inl (OSError EACCES p)
  | None =>
      match st !! parent p with
      | Some (NDir true) => inr (<[p := NFile (File content true true)]> st)
      | Some (NDir false) => inl (OSError EACCES p)
      | Some (NFile _) => inl (OSError ENOTDIR p)
      | None => inl (OSError ENOENT p)
      end
  end.

(** [shutil.copy2(src, dst)]: a directory as destination receives the file
    under the source's name; the contents are copied, then the mode. *)
Definition copy2_target (st : fs) (src dst : path) : path :=
  match st !! dst with
  | Some (NDir _) => joinpath dst (name src)
  | _ => dst
  end.

Definition copy2 (st : fs) (src dst : path) : exn + fs :=
  let dst' := copy2_target st src dst in
  match st !! src with
  | None => inl (OSError ENOENT src)
  | Some (NDir _) => inl (OSError EISDIR src)
  | Some (NFile f) =>
      if f_readable f then
        match open_wb st dst' (f_data f) with
        | inl e => inl e
        | inr st' => inr (<[dst' := NFile f]> st')
        end
      else inl (OSError EACCES src)
  end.

(** [p.exists()]. *)
Definition exists_ (st : fs) (p : path) : bool := bool_decide (is_Some (st !! p)).

(** ** The checker's tables *)

Definition text_extensions : gset string :=
  list_to_set
    [ ".cpp"; ".hpp"; ".cc"; ".cxx"; ".hxx"; ".h"; ".c";
      ".py"; ".pyx"; ".pyi";
      ".js"; ".ts"; ".jsx"; ".tsx";
      ".css"; ".scss"; ".sass"; ".less";
      ".html"; ".htm"; ".xml"; ".svg";
      ".json"; ".yaml"; ".yml"; ".toml";
      ".md"; ".rst"; ".txt";
      ".sh"; ".bash"; ".zsh"; ".fish";
      ".cmake"; ".cmake.in";
      ".proto"; ".capnp";
      ".sql"; ".sqlite";
      ".conf"; ".cfg"; ".ini";
      ".gitignore"; ".gitattributes" ].

Definition special_files : gset string :=
  list_to_set
    [ "Makefile"; "CMakeLists.txt"; "Dockerfile"; "Vagrantfile";
      "Jenkinsfile"; "Pipfile"; "requirements.txt"; "setup.py";
      "pyproject.toml"; "package.json"; "tsconfig.json" ].

(** ** File-level queries *)

(** [should_check_file]: by extension, by name, then by content. *)
Definition should_check_file (st : fs) (file_path : path) : bool :=
  if bool_decide (lower (suffix file_path) ∈ text_extensions) then true
  else if bool_decide (name file_path ∈ special_files) then true
  else
    match open_rb st file_path with
    | inr content =>
        let sample := take 1024 content in
        if bool_decide (sample = []) then true
        else negb (bool_decide (NUL ∈ sample))
    | inl _ => false
    end.

(** [has_eof_newline]: the file is empty, or its last byte, read as a
    [bytes] object of length one, is among [b'\n'], [b'\r\n'], [b'\r']. *)
Definition has_eof_newline (st : fs) (file_path : path) : bool :=
  match open_rb st file_path with
  | inr content =>
      if (length content =? 0)%nat then true
      else
        let last_char := take 1 (drop (length content - 1) content) in
        bool_decide (last_char ∈ [[LF]; [CR; LF]; [CR]])
  | inl _ => false
  end.

(** ** Effects: printing, writing files, raising *)

(** The state of a run: the file system and the lines printed so far, one
    entry per [print] call. *)
Record state := State { st_fs : fs; st_out : list string }.

(** A computation either returns a value or raises; the effects it had
    before raising stay. *)
Definition M (A : Type) : Type := state → (exn + A) * state.

Definition ret {A} (a : A) : M A := λ s, (inr a, s).

Definition bind {A B} (m : M A) (k : A → M B) : M B :=
  λ s, match m s with
       | (inr a, s') => k a s'
       | (inl e, s') => (inl e, s')
       end.

Notation "x <- m ;; k" := (bind m (λ x, k))
  (at level 100, m at next level, right associativity).
Notation "m ;;; k" := (bind m (λ _, k))
  (at level 100, right associativity).

Definition raise {A} (e : exn) : M A := λ s, (inl e, s).

(** Lifts a pure computation that may raise. *)
Definition lift {A} (r : exn + A) : M A :=
  match r with inl e => raise e | inr a => ret a end.

(** [print(line)]. *)
Definition print (line : string) : M unit :=
  λ s, (inr tt, State (st_fs s) (st_out s ++ [line])).

(** [sys.exit(code)]. *)
Definition sys_exit {A} (code : Z) : M A := raise (SystemExit code).

(** [try: body  except (OSError, IOError) as e: handler(e)]. *)
Definition try_except_OSError {A} (body : M A) (handler : exn → M A) : M A :=
  λ s, match body s with
       | (inl (OSError e p), s') => handler (OSError e p) s'
       | r => r
       end.

(** Reads, writes and copies as computations. *)
Definition read_file (p : path) : M bytes := λ s, (open_rb (st_fs s) p, s).

Definition write_file (p : path) (content : bytes) : M unit :=
  λ s, match open_wb (st_fs s) p content with
       | inr st' => (inr tt, State st' (st_out s))
       | inl e => (inl e, s)
       end.

Definition shutil_copy2 (src dst : path) : M unit :=
  λ s, match copy2 (st_fs s) src dst with
       | inr st' => (inr tt, State st' (st_out s))
       | inl e => (inl e, s)
       end.

(** [str(e)]. *)
Definition strerror (e : oserror) : string :=
  match e with
  | ENOENT => "[Errno 2] No such file or directory"
  | EACCES => "[Errno 13] Permission denied"
  | EISDIR => "[Errno 21] Is a directory"
  | ENOTDIR => "[Errno 20] Not a directory"
  end.

Definition str_of_exn (e : exn) : string :=
  match e with
  | OSError c p => strerror c +:+ ": '" +:+ str_of_path p +:+ "'"
  | ValueError msg => msg
  | SystemExit code => pretty code
  end.

(** [fix_eof_newline]: optional backup, then append ['\n'] when the content
    is not empty and does not end in a newline. *)
Definition fix_eof_newline (file_path : path) (create_backup : bool) : M bool :=
  try_except_OSError
    ((if create_backup then
        backup_path <- lift (with_suffix file_path (suffix file_path +:+ ".bak")) ;;
        shutil_copy2 file_path backup_path
      else ret tt) ;;;
     content <- read_file file_path ;;
     if bool_decide (content = []) then ret true
     else if endswith content [[LF]; [CR; LF]; [CR]] then ret true
     else
       write_file file_path (content ++ [LF]) ;;;
       ret true)
    (λ e,
       print ("Error fixing " +:+ str_of_path file_path +:+ ": " +:+ str_of_exn e) ;;;
       ret false).

(** The path [fix_eof_newline] hands to [shutil.copy2]: the name with
    [.bak] appended. *)
Definition backup_path (p : path) : path := parent p ++ [name p +:+ ".bak"].

(** A sufficient condition for the backup step to go through: the file has
    a proper name, and the backup path is either a writable regular file or
    absent from a writable directory. *)
Definition can_backup (st : fs) (p : path) : bool :=
  negb (String.eqb (name p) "") && negb (str_contains "/" (name p)) &&
  match st !! backup_path p with
  | Some (NFile g) => f_writable g
  | Some (NDir _) => false
  | None =>
      match st !! parent (backup_path p) with
      | Some (NDir true) => true
      | _ => false
      end
  end.

(** ** Discovery *)

(** What [os.walk] finds in a directory: the names of its entries that are
    not directories, and its sub-directories, in listing order. *)
#[warnings="-register-all"]
Inductive dirtree :=
  | Dir (filenames : list string) (subdirs : list (string * dirtree)).

(** [in_tree t dirs f]: the tree [t] has a file named [f] in the directory
    reached from its top through [dirs]. *)
Inductive in_tree : dirtree → list string → string → Prop :=
  | in_tree_here filenames subdirs f :
      f ∈ filenames → in_tree (Dir filenames subdirs) [] f
  | in_tree_below filenames subdirs d sub dirs f :
      (d, sub) ∈ subdirs → in_tree sub dirs f →
      in_tree (Dir filenames subdirs) (d :: dirs) f.

(** [sorted(files)]: paths compare part by part, strings by code point. *)
Fixpoint path_leb (a b : path) : bool :=
  match a, b with
  | [], _ => true
  | _ :: _, [] => false
  | x :: a', y :: b' =>
      match String.compare x y with
      | Lt => true
      | Gt => false
      | Eq => path_leb a' b'
      end
  end.

Fixpoint insert_sorted (x : path) (l : list path) : list path :=
  match l with
  | [] => [x]
  | y :: l' => if path_leb x y then x :: l else y :: insert_sorted x l'
  end.

Definition sorted (l : list path) : list path := foldr insert_sorted [] l.

Definition default_excludes : list string :=
  [ "build"; "cmake-build-*"; "_deps"; "CMakeFiles";
    ".git"; ".svn"; ".hg"; ".bzr";
    "__pycache__"; "*.pyc"; "*.pyo"; "*.pyd";
    "*.so"; "*.dll"; "*.dylib"; "*.exe";
    "*.o"; "*.obj"; "*.a"; "*.lib";
    "*.png"; "*.jpg"; "*.jpeg"; "*.gif"; "*.bmp"; "*.ico";
    "*.pdf"; "*.zip"; "*.tar"; "*.gz"; "*.bz2";
    "node_modules"; ".venv"; "venv"; ".env";
    ".idea"; ".vscode"; "*.swp"; "*.swo"; "*~" ].

(** [(exclude_patterns or []) + default_excludes]. *)
Definition exclude_list (exclude_patterns : option (list string)) : list string :=
  default [] exclude_patterns ++ default_excludes.

(** [include_patterns or ['*']]. *)
Definition include_list (include_patterns : option (list string)) : list string :=
  match include_patterns with
  | Some (pat :: pats) => pat :: pats
  | _ => ["*"]
  end.

Section WithFnmatch.

(** [fnmatch.fnmatch(name, pattern)]. *)
Variable fnmatch : string → string → bool.

(** [any(fnmatch.fnmatch(s, pattern) for pattern in patterns)]. *)
Definition any_fnmatch (s : string) (patterns : list string) : bool :=
  existsb (fnmatch s) patterns.

(** [os.walk(root)] top-down, together with the pruning its consumer does
    on the yielded [dirs] list: a directory is descended into only when
    its name matches no exclude pattern. Each item is the directory's
    path and the names of its files. *)
Fixpoint walk (exclude_patterns : list string) (root : path) (t : dirtree)
  : list (path * list string) :=
  match t with
  | Dir filenames subdirs =>
      (root, filenames) ::
      List.flat_map
        (λ entry, match entry with
                  | (d, sub) =>
                      if negb (any_fnmatch d exclude_patterns)
                      then walk exclude_patterns (joinpath root d) sub
                      else []
                  end)
        subdirs
  end.

(** The include test of one file; [relative_to] is reached only when the
    bare name does not match, and cannot raise there because every walked
    path starts with the project root. *)
Definition include_match (project_root file_path : path) (filename pattern : string)
  : bool :=
  fnmatch filename pattern
  || match relative_to file_path project_root with
     | inr rel => fnmatch (str_of_path rel) pattern
     | inl _ => false
     end.

(** The body of the loop over the files of one directory. *)
Definition keep_file (st : fs) (project_root : path)
    (exclude_patterns include_patterns : list string)
    (root : path) (filename : string) : bool :=
  let file_path := joinpath root filename in
  if any_fnmatch filename exclude_patterns then false
  else if negb (existsb (include_match project_root file_path filename) include_patterns)
  then false
  else should_check_file st file_path.

Definition discover_files (st : fs) (project_root : path) (tree : dirtree)
    (include_patterns exclude_patterns : option (list string)) : list path :=
  let exclude_patterns := exclude_list exclude_patterns in
  let include_patterns := include_list include_patterns in
  let files :=
    List.flat_map
      (λ item, match item with
               | (root, filenames) =>
                   map (joinpath root)
                     (filter
                        (λ filename,
                           keep_file st project_root exclude_patterns include_patterns
                             root filename = true)
                        filenames)
               end)
      (walk exclude_patterns project_root tree) in
  sorted files.

(** ** The batch operations and the command line *)

(** The file system as a computation reads it. *)
Definition get_fs : M fs := λ s, (inr (st_fs s), s).

Definition when (b : bool) (m : M unit) : M unit := if b then m else ret tt.

(** [try: body  except Exception as e: handler(e)]; [SystemExit] is not an
    [Exception]. *)
Definition try_except_Exception {A} (body : M A) (handler : exn → M A) : M A :=
  λ s, match body s with
       | (inl (SystemExit code), s') => (inl (SystemExit code), s')
       | (inl e, s') => handler e s'
       | r => r
       end.

(** [check_files]: the compliant and the non-compliant files, in input
    order, with one marker line per file when [show_details] is set. *)
Fixpoint check_files (project_root : path) (files : list path) (show_details : bool)
  : M (list path * list path) :=
  match files with
  | [] => ret ([], [])
  | file_path :: rest =>
      st <- get_fs ;;
      if has_eof_newline st file_path then
        when show_details
          (rel <- lift (relative_to file_path project_root) ;;
           print ("✅ " +:+ str_of_path rel)) ;;;
        r <- check_files project_root rest show_details ;;
        ret (file_path :: r.1, r.2)
      else
        when show_details
          (rel <- lift (relative_to file_path project_root) ;;
           print ("❌ " +:+ str_of_path rel +:+ " - Missing EOF newline")) ;;;
        r <- check_files project_root rest show_details ;;
        ret (r.1, file_path :: r.2)
  end.

(** [fix_files]: the loop, with the two counters as accumulators. *)
Fixpoint fix_files_from (project_root : path) (files : list path) (create_backup : bool)
    (success_count error_count : nat) : M (nat * nat) :=
  match files with
  | [] => ret (success_count, error_count)
  | file_path :: rest =>
      ok <- fix_eof_newline file_path create_backup ;;
      if ok then
        rel <- lift (relative_to file_path project_root) ;;
        print ("✅ Fixed " +:+ str_of_path rel) ;;;
        fix_files_from project_root rest create_backup (S success_count) error_count
      else
        rel <- lift (relative_to file_path project_root) ;;
        print ("❌ Failed to fix " +:+ str_of_path rel) ;;;
        fix_files_from project_root rest create_backup success_count (S error_count)
  end.

Definition fix_files (project_root : path) (files : list path) (create_backup : bool)
  : M (nat * nat) :=
  fix_files_from project_root files create_backup 0 0.

(** The parsed command line. [argparse] makes exactly one of [check] and
    [fix] true. *)
Record args := Args {
  check : bool;
  fix_ : bool;
  filter_ : option string;
  filter_from_file : option string;
  exclude : option string;
  backup : bool;
  show_details : bool;
  quiet : bool
}.

(** Truth value of an optional string: [None] and [''] are false. *)
Definition truthy (o : option string) : bool :=
  match o with
  | Some s => negb (String.eqb s "")
  | None => false
  end.

(** [s.split(sep)] for a one-character separator. *)
Fixpoint split_on (sep : ascii → bool) (s : string) : list string :=
  match s with
  | "" => [""]
  | String a s' =>
      if sep a then "" :: split_on sep s'
      else match split_on sep s' with
           | piece :: pieces => String a piece :: pieces
           | [] => [String a ""]
           end
  end.

(** Characters [str.strip()] removes, among the ASCII ones. *)
Definition is_space (a : ascii) : bool :=
  let n := nat_of_ascii a in
  ((9 <=? n)%nat && (n <=? 13)%nat) || ((28 <=? n)%nat && (n <=? 32)%nat).

Fixpoint lstrip (s : string) : string :=
  match s with
  | String a s' => if is_space a then lstrip s' else s
  | "" => ""
  end.

Definition strip (s : string) : string :=
  String.rev (lstrip (String.rev (lstrip s))).

(** [Path(s)]: the parts of a path given as text; empty pieces and [.] are
    dropped, and a leading slash gives the root part. A root of exactly two
    slashes, which [pathlib] keeps apart, is not modelled. *)
Definition path_of_string (s : string) : path :=
  let pieces :=
    filter (λ piece, piece ≠ "" ∧ piece ≠ ".") (split_on (λ a, Ascii.eqb a "/") s) in
  if startswith_char "/" s then "/" :: pieces else pieces.

Definition is_absolute (p : path) : bool :=
  match p with
  | r :: _ => String.eqb r "/"
  | [] => false
  end.

(** The lines of a text file: bytes are read as ASCII characters, and a line
    ends at a line feed or a carriage return. Decoding errors are not
    modelled. *)
Definition read_lines (cwd : path) (file_name : string) : M (list string) :=
  let p := path_of_string file_name in
  content <- read_file (if is_absolute p then p else cwd ++ p) ;;
  ret (split_on (λ a, Ascii.eqb a "010" || Ascii.eqb a "013")
         (String.string_of_list_byte content)).

(** What the process finds around it: the resolved path of the script, the
    working directory, and the directory tree below the project root. *)
Record env := Env { script_path : path; cwd : path; tree : dirtree }.

(** The files named in the list file that exist and are checkable. *)
Definition files_from_list (project_root : path) (file_list : list string) : M (list path) :=
  st <- get_fs ;;
  ret (omap
         (λ file_path,
            let abs_path :=
              if negb (is_absolute (path_of_string file_path))
              then project_root ++ path_of_string file_path
              else path_of_string file_path in
            if exists_ st abs_path && should_check_file st abs_path
            then Some abs_path else None)
         file_list).

(** File selection: the list file when given, discovery otherwise. *)
Definition select_files (e : env) (a : args) (project_root : path) : M (list path) :=
  let include_patterns :=
    if truthy (filter_ a) then Some [default "" (filter_ a)] else None in
  let exclude_patterns :=
    if truthy (exclude a)
    then Some (split_on (λ c, Ascii.eqb c ",") (default "" (exclude a)))
    else None in
  match filter_from_file a with
  | Some list_name =>
      try_except_Exception
        (lines <- read_lines (cwd e) list_name ;;
         let file_list := filter (λ line, line ≠ "") (map strip lines) in
         files_from_list project_root file_list)
        (λ err,
           print ("Error reading file list from "
                  +:+ str_of_path (path_of_string list_name)
                  +:+ ": " +:+ str_of_exn err) ;;;
           sys_exit 1)
  | None =>
      st <- get_fs ;;
      ret (discover_files st project_root (tree e) include_patterns exclude_patterns)
  end.

(** The [--check] action. *)
Definition run_check (a : args) (project_root : path) (files_to_check : list path)
  : M unit :=
  r <- check_files project_root files_to_check (show_details a) ;;
  let compliant_files := r.1 in
  let non_compliant_files := r.2 in
  when (negb (quiet a))
    (print (nl +:+ "Results:") ;;;
     print ("✅ Files with EOF newline: " +:+ pretty (length compliant_files)) ;;;
     print ("❌ Files missing EOF newline: " +:+ pretty (length non_compliant_files))) ;;;
  if negb (bool_decide (non_compliant_files = [])) then
    when (negb (show_details a) && negb (quiet a))
      (print (nl +:+ "Files missing EOF newline:") ;;;
       foldr
         (λ file_path k,
            rel <- lift (relative_to file_path project_root) ;;
            print ("  " +:+ str_of_path rel) ;;;
            k)
         (ret tt) (take 10 non_compliant_files) ;;;
       when (10 <? length non_compliant_files)%nat
         (print ("  ... and " +:+ pretty (length non_compliant_files - 10)%nat
                 +:+ " more"))) ;;;
    print (nl +:+ "To fix all files: python tools/check_eof_newline.py --fix") ;;;
    when (negb (backup a))
      (print "Add --backup to create backup files before fixing") ;;;
    sys_exit 1
  else
    when (negb (quiet a))
      (print (nl +:+ "✅ All " +:+ pretty (length files_to_check)
              +:+ " files have proper EOF newlines")) ;;;
    sys_exit 0.

(** The [--fix] action. *)
Definition run_fix_action (a : args) (project_root : path) (files_to_check : list path)
  : M unit :=
  r <- check_files project_root files_to_check false ;;
  let files_to_fix := r.2 in
  if bool_decide (files_to_fix = []) then
    print ("✅ All " +:+ pretty (length files_to_check)
           +:+ " files already have EOF newlines") ;;;
    sys_exit 0
  else
    when (negb (quiet a))
      (print ("Fixing EOF newlines in " +:+ pretty (length files_to_fix) +:+ " files...") ;;;
       when (backup a) (print "Creating backup files with .bak extension") ;;;
       print "") ;;;
    counts <- fix_files project_root files_to_fix (backup a) ;;
    let success_count := counts.1 in
    let error_count := counts.2 in
    when (negb (quiet a))
      (print (nl +:+ "Results:") ;;;
       print ("✅ Successfully fixed: " +:+ pretty success_count) ;;;
       when (0 <? error_count)%nat
         (print ("❌ Failed to fix: " +:+ pretty error_count))) ;;;
    if (0 <? error_count)%nat then
      print (nl +:+ "❌ Some files could not be fixed") ;;;
      sys_exit 1
    else
      print (nl +:+ "✅ Successfully fixed EOF newlines in " +:+ pretty success_count
             +:+ " files") ;;;
      when (negb (quiet a))
        (print (nl +:+ "Recommended next steps:") ;;;
         print "1. Review the changes: git diff" ;;;
         print "2. Stage the changes: git add -u" ;;;
         print "3. Commit the fixes: git commit -m 'Fix EOF newlines in source files'") ;;;
      sys_exit 0.

(** [main], after argument parsing. *)
Definition main (e : env) (a : args) : M unit :=
  let project_root := parent (parent (script_path e)) in
  st <- get_fs ;;
  when (negb (exists_ st (joinpath project_root "CMakeLists.txt")))
    (print ("Error: Project root not found. Expected CMakeLists.txt at "
            +:+ str_of_path project_root) ;;;
     sys_exit 1) ;;;
  when (negb (quiet a))
    (print "End-of-file newline checker for Inference Systems Lab" ;;;
     print ("Project root: " +:+ str_of_path project_root) ;;;
     print "") ;;;
  files_to_check <- select_files e a project_root ;;
  when (bool_decide (files_to_check = []))
    (print "No files found matching criteria" ;;;
     sys_exit 0) ;;;
  when (negb (quiet a))
    (print ("Found " +:+ pretty (length files_to_check) +:+ " files to check") ;;;
     when (truthy (filter_ a))
       (print ("Include pattern: " +:+ default "" (filter_ a))) ;;;
     when (bool_decide (is_Some (filter_from_file a)))
       (print ("Files from: "
               +:+ str_of_path (path_of_string (default "" (filter_from_file a))))) ;;;
     when (truthy (exclude a))
       (print ("Exclude patterns: " +:+ default "" (exclude a))) ;;;
     print "") ;;;
  if check a then run_check a project_root files_to_check
  else if fix_ a then run_fix_action a project_root files_to_check
  else ret tt.

End WithFnmatch.

(** A matcher for worked examples: [fnmatch] on patterns without bracket
    expressions, where [*] matches any run of characters and [?] any one
    character. *)
Fixpoint simple_fnmatch_aux (pat : string) (s : string) : bool :=
  match pat with
  | "" => match s with "" => true | _ => false end
  | String c pat' =>
      if Ascii.eqb c "*" then
        (fix star (s : string) : bool :=
           simple_fnmatch_aux pat' s
           || match s with
              | "" => false
              | String _ s' => star s'
              end) s
      else
        match s with
        | "" => false
        | String a s' =>
            (Ascii.eqb c "?" || Ascii.eqb a c) && simple_fnmatch_aux pat' s'
        end
  end.

Definition simple_fnmatch (s pattern : string) : bool := simple_fnmatch_aux pattern s.

(** The exit status of the process: the code given to [sys.exit], 1 for an
    exception nobody caught, 0 when [main] returns. *)
Definition exit_status {A} (r : exn + A) : Z :=
  match r with
  | inr _ => 0
  | inl (SystemExit code) => code
  | inl _ => 1
  end.

(** The marker lines [check_files] prints with [show_details], for files
    below the project root. *)
Definition detail_lines (st : fs) (project_root : path) (files : list path) : list string :=
  List.flat_map
    (λ file_path,
       match strip_prefix project_root file_path with
       | Some rel =>
           if has_eof_newline st file_path
           then ["✅ " +:+ str_of_path rel]
           else ["❌ " +:+ str_of_path rel +:+ " - Missing EOF newline"]
       | None => []
       end)
    files.

(** A path lies below the project root when [relative_to] accepts it. *)
Definition below (project_root file_path : path) : Prop :=
  is_Some (strip_prefix project_root file_path).

(** ** A sample project for worked examples *)

Definition sample_root : path := ["/"; "proj"].

Definition text_file (content : bytes) : node := NFile (File content true true).

Definition sample_fs : fs :=
  list_to_map
    [ (sample_root, NDir true);
      (sample_root ++ ["CMakeLists.txt"], text_file [x70; x0a]);
      (sample_root ++ ["a.txt"], text_file [x68; x69; x0a]);
      (sample_root ++ ["b.py"], text_file [x78; x3d; x31]);
      (sample_root ++ ["data.bin"], text_file [x00; x01]);
      (sample_root ++ ["notes"], text_file []);
      (sample_root ++ ["locked.dat"], NFile (File [x61] false false));
      (sample_root ++ ["build"], NDir true);
      (sample_root ++ ["build"; "x.txt"], text_file [x67]);
      (sample_root ++ ["src"], NDir false);
      (sample_root ++ ["src"; "c.h"], text_file [x69; x0d; x0a]) ].

Definition sample_tree : dirtree :=
  Dir ["CMakeLists.txt"; "a.txt"; "b.py"; "data.bin"; "notes"; "locked.dat"]
      [ ("build", Dir ["x.txt"] []); ("src", Dir ["c.h"] []) ].

Definition sample_env : env :=
  Env (sample_root ++ ["tools"; "check_eof_newline.py"]) sample_root sample_tree.

(** The sample project with a file outside it, and a list file that names
    that file by its absolute path, [/tmp/x.txt]. *)
Definition stray_fs : fs :=
  <[ ["/"; "tmp"; "x.txt"] := text_file [x6f; x6b; x0a] ]>
    (<[ sample_root ++ ["staged.txt"] :=
          text_file [x2f; x74; x6d; x70; x2f; x78; x2e; x74; x78; x74; x0a] ]>
       sample_fs).

(** A computation that only prints, and one that ends in [sys.exit(code)]
    after printing. *)
Definition prints (m : M unit) : Prop :=
  ∀ s, ∃ out, m s = (inr tt, State (st_fs s) (st_out s ++ out)).

Definition exits {A} (code : Z) (m : M A) : Prop :=
  ∀ s, ∃ out, m s = (inl (SystemExit code), State (st_fs s) (st_out s ++ out)).

(* ================================================================== *)
(** * Properties *)

(** The library-level operations stay folded under [simpl]; the proofs
    rewrite with their equations. *)
#[local] Arguments endswith : simpl never.
#[local] Arguments with_suffix : simpl never.
#[local] Arguments open_rb : simpl never.
#[local] Arguments open_wb : simpl never.
#[local] Arguments copy2 : simpl never.
#[local] Arguments str_of_path : simpl never.
#[local] Arguments str_of_exn : simpl never.
#[local] Arguments backup_path : simpl never.
#[local] Arguments relative_to : simpl never.

Example suffix_upper : lower (suffix ["/"; "proj"; "src"; "Main.CPP"]) = ".cpp".
Proof. reflexivity. Qed.

Example suffix_dotfile : suffix ["/"; "proj"; ".gitignore"] = "".
Proof. reflexivity. Qed.

(** ** Reading the last byte *)

Lemma last_char_snoc (l : bytes) (x : byte) :
  take 1 (drop (length (l ++ [x]) - 1) (l ++ [x])) = [x].
Proof.
  rewrite length_app. simpl.
  replace (length l + 1 - 1)%nat with (length l) by lia.
  by rewrite drop_app_length.
Qed.

Lemma newline_tuple_singleton (x : byte) :
  [x] ∈ [[LF]; [CR; LF]; [CR]] ↔ x = LF ∨ x = CR.
Proof.
  rewrite !elem_of_cons, elem_of_nil. split.
  - intros [H | [H | [H | []]]]; inversion H; auto.
  - intros [-> | ->]; auto.
Qed.

Lemma has_eof_newline_read st p content :
  open_rb st p = inr content →
  has_eof_newline st p =
    bool_decide (content = [] ∨ last content = Some LF ∨ last content = Some CR).
Proof.
  intros Hopen. unfold has_eof_newline. rewrite Hopen.
  destruct content as [| b l _] using rev_ind.
  - reflexivity.
  - rewrite last_char_snoc.
    replace (length (l ++ [b]) =? 0)%nat with false
      by (symmetry; apply Nat.eqb_neq; rewrite length_app; simpl; lia).
    apply bool_decide_ext. rewrite newline_tuple_singleton, last_snoc.
    split.
    + intros [-> | ->]; auto.
    + intros [H | [H | H]]; [by destruct l | left | right]; congruence.
Qed.

(** C2. On a file that can be read, [has_eof_newline] answers true when the
    file is empty; on a non-empty file it answers true exactly when the
    final byte is a line feed or a carriage return, which includes every
    content that ends in carriage return + line feed. *)
Theorem has_eof_newline_last_byte st p content :
  open_rb st p = inr content →
  (content = [] → has_eof_newline st p = true) ∧
  (content ≠ [] →
     (has_eof_newline st p = true ↔ last content = Some LF ∨ last content = Some CR)) ∧
  (∀ pre, content = pre ++ [CR; LF] → has_eof_newline st p = true).
Proof.
  intros Hopen. rewrite (has_eof_newline_read _ _ _ Hopen). repeat split.
  - intros ->. apply bool_decide_eq_true. by left.
  - intros Hd%bool_decide_eq_true. destruct Hd as [Hd | Hd]; [done | exact Hd].
  - intros Hd. apply bool_decide_eq_true. by right.
  - intros pre ->. apply bool_decide_eq_true. right. left.
    replace (pre ++ [CR; LF]) with ((pre ++ [CR]) ++ [LF]) by (by rewrite <- app_assoc).
    apply last_snoc.
Qed.

(** ** Classification *)

Lemma should_check_file_fallback st p :
  lower (suffix p) ∉ text_extensions →
  name p ∉ special_files →
  should_check_file st p =
    match open_rb st p with
    | inr content =>
        if bool_decide (take 1024 content = []) then true
        else negb (bool_decide (NUL ∈ take 1024 content))
    | inl _ => false
    end.
Proof.
  intros Hext Hname. unfold should_check_file.
  by rewrite (bool_decide_eq_false_2 _ Hext), (bool_decide_eq_false_2 _ Hname).
Qed.

Lemma sample_length (content : bytes) :
  take (Nat.min (length content) 1024) content = take 1024 content.
Proof.
  destruct (decide (length content ≤ 1024)%nat) as [Hle | Hgt].
  - rewrite Nat.min_l by done. by rewrite !take_ge by lia.
  - by rewrite Nat.min_r by lia.
Qed.

(** C7. A file that neither its extension nor its name qualifies is
    classified by its content: an empty file is checkable, a file with a
    null byte among its first min(size, 1024) bytes is not, and a file
    without one is. *)
Theorem should_check_file_content_heuristic st p content :
  lower (suffix p) ∉ text_extensions →
  name p ∉ special_files →
  open_rb st p = inr content →
  (content = [] → should_check_file st p = true) ∧
  (NUL ∈ take (Nat.min (length content) 1024) content → should_check_file st p = false) ∧
  (NUL ∉ take (Nat.min (length content) 1024) content → should_check_file st p = true).
Proof.
  intros Hext Hname Hopen.
  rewrite (should_check_file_fallback _ _ Hext Hname), Hopen, sample_length.
  repeat split.
  - by intros ->.
  - intros Hnul. rewrite bool_decide_eq_false_2.
    + by rewrite (bool_decide_eq_true_2 _ Hnul).
    + intros Hnil. rewrite Hnil in Hnul. by apply elem_of_nil in Hnul.
  - intros Hnul. case_bool_decide; [done |].
    by rewrite (bool_decide_eq_false_2 _ Hnul).
Qed.

(** C6. A failure to open a file never escapes the two queries: the
    trailing-newline check answers false, and the classification answers
    false whenever it comes to open the file, that is, unless the extension
    or the name has already qualified the file. *)
Theorem io_failure_yields_false st p e :
  open_rb st p = inl e →
  has_eof_newline st p = false ∧
  should_check_file st p =
    bool_decide (lower (suffix p) ∈ text_extensions) || bool_decide (name p ∈ special_files).
Proof.
  intros Hopen. unfold has_eof_newline, should_check_file. rewrite Hopen.
  split; [done |].
  by destruct (bool_decide (lower (suffix p) ∈ text_extensions)),
       (bool_decide (name p ∈ special_files)).
Qed.

(** ** Strings and paths *)

Lemma str_app_cons a (x y : string) : String a x +:+ y = String a (x +:+ y).
Proof. reflexivity. Qed.

Lemma str_app_nil (y : string) : "" +:+ y = y.
Proof. reflexivity. Qed.

Lemma str_take_drop n s : str_take n s +:+ str_drop n s = s.
Proof.
  revert s. induction n as [| n IH]; intros [| a s]; simpl; try done.
  by rewrite str_app_cons, IH.
Qed.

Lemma str_drop_length n s :
  (n ≤ String.length s)%nat → String.length (str_drop n s) = (String.length s - n)%nat.
Proof.
  revert s. induction n as [| n IH]; intros [| a s] Hn; simpl in *; try lia.
  apply IH. lia.
Qed.

Lemma str_append_assoc (a b c : string) : (a +:+ b) +:+ c = a +:+ (b +:+ c).
Proof. induction a as [| x a IH]; [done | by rewrite !str_app_cons, IH]. Qed.

Lemma str_append_length (a b : string) :
  String.length (a +:+ b) = (String.length a + String.length b)%nat.
Proof. induction a as [| x a IH]; [done | by rewrite str_app_cons; simpl; rewrite IH]. Qed.

Lemma str_contains_app c (a b : string) :
  str_contains c (a +:+ b) = str_contains c a || str_contains c b.
Proof.
  induction a as [| x a IH]; [done |].
  rewrite str_app_cons. simpl. rewrite IH. by rewrite orb_assoc.
Qed.

Lemma str_contains_drop c n s :
  str_contains c s = false → str_contains c (str_drop n s) = false.
Proof.
  revert s. induction n as [| n IH]; intros [| a s]; simpl; try done.
  intros [_ H]%orb_false_elim. by apply IH.
Qed.

Lemma rfind_lt c s i : rfind c s = Some i → (i < String.length s)%nat.
Proof.
  revert i. induction s as [| a s IH]; intros i; simpl; [done |].
  destruct (rfind c s) as [j |].
  - intros [= <-]. specialize (IH j eq_refl). lia.
  - destruct (Ascii.eqb a c); intros [= <-]. lia.
Qed.

Lemma rfind_startswith c s i :
  rfind c s = Some i → startswith_char c (str_drop i s) = true.
Proof.
  revert i. induction s as [| a s IH]; intros i; simpl; [done |].
  destruct (rfind c s) as [j |].
  - intros [= <-]. simpl. by apply IH.
  - destruct (Ascii.eqb a c) eqn:Hac; intros [= <-]. simpl. exact Hac.
Qed.

Lemma suffix_of_name_contains c nm :
  str_contains c nm = false → str_contains c (suffix_of_name nm) = false.
Proof.
  intros H. unfold suffix_of_name.
  destruct (rfind "." nm) as [i |]; [| done].
  destruct (_ && _); [| done]. by apply str_contains_drop.
Qed.

Lemma suffix_of_name_startswith nm :
  suffix_of_name nm ≠ "" → startswith_char "." (suffix_of_name nm) = true.
Proof.
  unfold suffix_of_name. destruct (rfind "." nm) as [i |] eqn:Hr; [| done].
  destruct (_ && _); [| done]. intros _. by apply rfind_startswith.
Qed.

Lemma str_take_all s : str_take (String.length s) s = s.
Proof. induction s as [| a s IH]; simpl; [done | by rewrite IH]. Qed.

Lemma str_app_nil_r (s : string) : s +:+ "" = s.
Proof. induction s as [| a s IH]; [done | by rewrite str_app_cons, IH]. Qed.

Lemma suffix_of_name_strip nm :
  str_take (String.length nm - String.length (suffix_of_name nm)) nm +:+ suffix_of_name nm = nm.
Proof.
  unfold suffix_of_name. destruct (rfind "." nm) as [i |] eqn:Hr.
  - destruct (_ && _).
    + pose proof (rfind_lt _ _ _ Hr) as Hi.
      rewrite str_drop_length by lia.
      replace (String.length nm - (String.length nm - i))%nat with i by lia.
      apply str_take_drop.
    + simpl. by rewrite Nat.sub_0_r, str_take_all, str_app_nil_r.
  - simpl. by rewrite Nat.sub_0_r, str_take_all, str_app_nil_r.
Qed.

(** For a path with a proper name, [with_suffix] with the old suffix plus
    [.bak] yields the backup path. *)
Lemma with_suffix_bak p :
  name p ≠ "" →
  str_contains "/" (name p) = false →
  with_suffix p (suffix p +:+ ".bak") = inr (backup_path p).
Proof.
  intros Hname Hslash. unfold with_suffix, backup_path, suffix.
  rewrite str_contains_app, (suffix_of_name_contains _ _ Hslash). simpl.
  destruct (String.eqb_spec (suffix_of_name (name p)) "") as [Hs | Hs].
  - rewrite Hs. simpl. destruct (String.eqb_spec (name p) ""); [done |]. done.
  - assert (Hstart : startswith_char "." (suffix_of_name (name p) +:+ ".bak") = true).
    { pose proof (suffix_of_name_startswith _ Hs) as H.
      destruct (suffix_of_name (name p)); [done | exact H]. }
    rewrite Hstart. simpl.
    assert (Hne : String.eqb (suffix_of_name (name p) +:+ ".bak") "" = false).
    { apply String.eqb_neq. by destruct (suffix_of_name (name p)). }
    assert (Hdot : String.eqb (suffix_of_name (name p) +:+ ".bak") "." = false).
    { apply String.eqb_neq. intros H.
      apply (f_equal String.length) in H. rewrite str_append_length in H.
      simpl in H. lia. }
    rewrite Hne, Hdot. simpl.
    destruct (String.eqb_spec (name p) ""); [done |].
    by rewrite <- str_append_assoc, suffix_of_name_strip.
Qed.

Lemma name_last p : name p ≠ "" → p = parent p ++ [name p].
Proof.
  intros Hname. unfold parent.
  destruct p as [| r [| x q]].
  - done.
  - simpl in *. by destruct (String.eqb r "/").
  - change (name (r :: x :: q)) with (List.last (r :: x :: q) "").
    by apply app_removelast_last.
Qed.

Lemma backup_path_ne p : name p ≠ "" → backup_path p ≠ p.
Proof.
  intros Hname Heq. unfold backup_path in Heq.
  rewrite (name_last p Hname) in Heq at 3.
  apply app_inv_head in Heq. injection Heq as Heq.
  apply (f_equal String.length) in Heq. rewrite str_append_length in Heq.
  simpl in Heq. lia.
Qed.

(** ** Fixing a file *)

Lemma suffix_singleton_last (x : byte) (B : bytes) :
  [x] `suffix_of` B ↔ last B = Some x.
Proof.
  split.
  - intros [k ->]. apply last_snoc.
  - destruct B as [| b l _] using rev_ind; [done |].
    rewrite last_snoc. intros [= ->]. by exists l.
Qed.

Lemma endswith_newline (B : bytes) :
  endswith B [[LF]; [CR; LF]; [CR]] = true ↔ last B = Some LF ∨ last B = Some CR.
Proof.
  unfold endswith, existsb. rewrite !orb_true_iff, !bool_decide_eq_true.
  rewrite !suffix_singleton_last. split.
  - intros [H | [[k ->] | [H | H]]]; [by left | | by right | done].
    left. replace (k ++ [CR; LF]) with ((k ++ [CR]) ++ [LF]) by (by rewrite <- app_assoc).
    apply last_snoc.
  - intros [H | H]; [by left | by right; right; left].
Qed.

Lemma endswith_no_newline (B : bytes) :
  last B ≠ Some LF → last B ≠ Some CR → endswith B [[LF]; [CR; LF]; [CR]] = false.
Proof.
  intros H1 H2. apply not_true_is_false. rewrite endswith_newline. tauto.
Qed.

Lemma can_backup_name st p :
  can_backup st p = true → name p ≠ "" ∧ str_contains "/" (name p) = false.
Proof.
  unfold can_backup. intros [[H1 H2]%andb_true_iff _]%andb_true_iff.
  split.
  - intros Heq. rewrite Heq in H1. done.
  - by apply negb_true_iff.
Qed.

(** With [can_backup], the copy succeeds and leaves everything but the
    backup path as it was. *)
Lemma copy2_backup st p f :
  st !! p = Some (NFile f) →
  f_readable f = true →
  can_backup st p = true →
  copy2 st p (backup_path p) = inr (<[backup_path p := NFile f]> st).
Proof.
  intros Hp Hr Hcan. unfold copy2, copy2_target. rewrite Hp, Hr.
  unfold can_backup in Hcan. apply andb_true_iff in Hcan as [_ Hcan].
  unfold open_wb.
  destruct (st !! backup_path p) as [[g | w] |] eqn:Hb; [| done |].
  - rewrite Hb, Hcan. by rewrite insert_insert_eq.
  - rewrite Hb. destruct (st !! parent (backup_path p)) as [[g | [|]] |]; try done.
    by rewrite insert_insert_eq.
Qed.

Lemma can_backup_after_write st p f g :
  can_backup st p = true →
  f_writable f = true →
  can_backup (<[p := NFile g]> (<[backup_path p := NFile f]> st)) p = true.
Proof.
  intros Hcan Hw. pose proof (can_backup_name _ _ Hcan) as [Hname Hslash].
  unfold can_backup in *.
  rewrite lookup_insert_ne by (intros Heq; by apply (backup_path_ne p)).
  rewrite lookup_insert_eq, Hw.
  apply andb_true_iff in Hcan as [-> _]. done.
Qed.

Lemma copy2_oserror st src dst e :
  copy2 st src dst = inl e → ∃ c q, e = OSError c q.
Proof.
  unfold copy2, open_wb. generalize (copy2_target st src dst). intros t H.
  destruct (st !! src) as [[f | w] |]; [| by simplify_eq; eauto ..].
  destruct (f_readable f); [| by simplify_eq; eauto].
  destruct (st !! t) as [[g | w] |].
  - destruct (f_writable g); simplify_eq; eauto.
  - simplify_eq; eauto.
  - destruct (st !! parent t) as [[g | [|]] |]; simplify_eq; eauto.
Qed.

Ltac run_fix :=
  unfold fix_eof_newline, try_except_OSError, bind, lift, ret, raise, read_file,
    write_file, shutil_copy2, print; simpl.

(** C1. On a readable and writable file whose content [B] is not empty and
    does not end in a line feed or a carriage return, [fix_eof_newline]
    (with a backup whose copy can be made, or without one) returns true and
    leaves the file holding [B] followed by one line feed; a second call
    returns true and leaves the file as it is, and without a backup it
    changes nothing at all. *)
Theorem fix_appends_newline_idempotent st out p f backup :
  st !! p = Some (NFile f) →
  f_readable f = true →
  f_writable f = true →
  f_data f ≠ [] →
  last (f_data f) ≠ Some LF →
  last (f_data f) ≠ Some CR →
  (backup = true → can_backup st p = true) →
  ∃ st' st'',
    fix_eof_newline p backup (State st out) = (inr true, State st' out) ∧
    st' !! p = Some (NFile (File (f_data f ++ [LF]) true true)) ∧
    fix_eof_newline p backup (State st' out) = (inr true, State st'' out) ∧
    st'' !! p = st' !! p ∧
    (backup = false → st'' = st').
Proof.
  intros Hp Hr Hw Hne Hlf Hcr Hcan.
  assert (Hend : endswith (f_data f) [[LF]; [CR; LF]; [CR]] = false)
    by by apply endswith_no_newline.
  assert (Hend' : endswith (f_data f ++ [LF]) [[LF]; [CR; LF]; [CR]] = true)
    by (apply endswith_newline; left; apply last_snoc).
  assert (Hne' : f_data f ++ [LF] ≠ []) by (by destruct (f_data f)).
  set (f' := File (f_data f ++ [LF]) true true).
  destruct backup.
  - specialize (Hcan eq_refl).
    pose proof (can_backup_name _ _ Hcan) as [Hname Hslash].
    pose proof (backup_path_ne p Hname) as Hbp.
    set (st1 := <[backup_path p := NFile f]> st).
    assert (Hp1 : st1 !! p = Some (NFile f))
      by (unfold st1; by rewrite lookup_insert_ne).
    set (st' := <[p := NFile f']> st1).
    assert (Hp' : st' !! p = Some (NFile f')) by apply lookup_insert_eq.
    assert (Hcan' : can_backup st' p = true)
      by (by apply can_backup_after_write).
    exists st', (<[backup_path p := NFile f']> st').
    split; [| split; [done | split; [| split; [| done]]]].
    + run_fix. rewrite (with_suffix_bak p Hname Hslash). simpl.
      rewrite (copy2_backup st p f Hp Hr Hcan). simpl. fold st1.
      unfold open_rb. rewrite Hp1, Hr.
      rewrite (bool_decide_eq_false_2 _ Hne), Hend.
      unfold open_wb. simpl. rewrite Hp1, Hw, Hr. done.
    + run_fix. rewrite (with_suffix_bak p Hname Hslash). simpl.
      rewrite (copy2_backup st' p f' Hp' eq_refl Hcan'). simpl.
      unfold open_rb. rewrite lookup_insert_ne by done. rewrite Hp'. simpl.
      by rewrite (bool_decide_eq_false_2 _ Hne'), Hend'.
    + by rewrite lookup_insert_ne.
  - exists (<[p := NFile f']> st), (<[p := NFile f']> st).
    split; [| split; [apply lookup_insert_eq | split; [| done]]].
    + run_fix. unfold open_rb. rewrite Hp, Hr.
      rewrite (bool_decide_eq_false_2 _ Hne), Hend.
      unfold open_wb. simpl. rewrite Hp, Hw, Hr. done.
    + run_fix. unfold open_rb. rewrite lookup_insert_eq. simpl.
      by rewrite (bool_decide_eq_false_2 _ Hne'), Hend'.
Qed.

Lemma open_wb_keeps_others st p content st' q :
  open_wb st p content = inr st' → q ≠ p → st' !! q = st !! q.
Proof.
  unfold open_wb. intros H Hq.
  destruct (st !! p) as [[g | w] |].
  - destruct (f_writable g); simplify_eq. by rewrite lookup_insert_ne.
  - done.
  - destruct (st !! parent p) as [[g | [|]] |]; simplify_eq.
    by rewrite lookup_insert_ne.
Qed.

Lemma open_wb_oserror st p content e :
  open_wb st p content = inl e → ∃ c q, e = OSError c q.
Proof.
  unfold open_wb. intros H.
  destruct (st !! p) as [[g | w] |].
  - destruct (f_writable g); simplify_eq; eauto.
  - simplify_eq; eauto.
  - destruct (st !! parent p) as [[g | [|]] |]; simplify_eq; eauto.
Qed.

(** C9. With a backup requested, the copy is made before the content is
    looked at. Whatever the content, the file system [fix_eof_newline]
    leaves holds a copy of the file as it was at the backup path. When the
    file is empty or already ends in a newline, the call returns true and
    the copy at the backup path, created or overwritten, is its only
    effect: the original is not written. *)
Theorem backup_written_before_checks st out p f :
  st !! p = Some (NFile f) →
  f_readable f = true →
  can_backup st p = true →
  st_fs (fix_eof_newline p true (State st out)).2 !! backup_path p = Some (NFile f) ∧
  (f_data f = [] ∨ last (f_data f) = Some LF ∨ last (f_data f) = Some CR →
   fix_eof_newline p true (State st out)
     = (inr true, State (<[backup_path p := NFile f]> st) out) ∧
   (<[backup_path p := NFile f]> st) !! p = Some (NFile f)).
Proof.
  intros Hp Hr Hcan.
  pose proof (can_backup_name _ _ Hcan) as [Hname Hslash].
  pose proof (backup_path_ne p Hname) as Hbp.
  assert (Hp1 : (<[backup_path p := NFile f]> st) !! p = Some (NFile f))
    by (by rewrite lookup_insert_ne).
  split.
  - run_fix. rewrite (with_suffix_bak p Hname Hslash). simpl.
    rewrite (copy2_backup st p f Hp Hr Hcan). simpl.
    unfold open_rb at 1. rewrite Hp1, Hr.
    case_bool_decide; [simpl; apply lookup_insert_eq |].
    destruct (endswith _ _); [simpl; apply lookup_insert_eq |].
    destruct (open_wb _ p _) as [e | st2] eqn:Hwb.
    + assert (∃ c q, e = OSError c q) as (c & q & ->).
      { by apply open_wb_oserror in Hwb. }
      simpl. apply lookup_insert_eq.
    + simpl. rewrite (open_wb_keeps_others _ _ _ _ _ Hwb) by done.
      apply lookup_insert_eq.
  - intros Hcontent. split; [| done].
    run_fix. rewrite (with_suffix_bak p Hname Hslash). simpl.
    rewrite (copy2_backup st p f Hp Hr Hcan). simpl.
    unfold open_rb at 1. rewrite Hp1, Hr.
    destruct Hcontent as [Hnil | Hnl].
    + by rewrite (bool_decide_eq_true_2 _ Hnil).
    + case_bool_decide; [done |].
      by rewrite (proj2 (endswith_newline _) Hnl).
Qed.

(** C10. With a backup requested, when the copy fails with an [OSError]
    the call prints the error, returns false and leaves the whole file
    system, the original included, as it was. *)
Theorem backup_failure_leaves_original st out p bp e :
  with_suffix p (suffix p +:+ ".bak") = inr bp →
  copy2 st p bp = inl e →
  fix_eof_newline p true (State st out)
    = (inr false,
       State st (out ++ ["Error fixing " +:+ str_of_path p +:+ ": " +:+ str_of_exn e])).
Proof.
  intros Hbp Hcopy. destruct (copy2_oserror _ _ _ _ Hcopy) as (c & q & ->).
  run_fix. rewrite Hbp. simpl. by rewrite Hcopy.
Qed.

(** ** Discovery *)

Lemma dirtree_induction (P : dirtree → Prop) :
  (∀ filenames subdirs,
     Forall (λ entry, P entry.2) subdirs → P (Dir filenames subdirs)) →
  ∀ t, P t.
Proof.
  intros Hstep. fix IH 1. intros [filenames subdirs]. apply Hstep.
  induction subdirs as [| [d sub] rest IHrest]; constructor; [apply IH | exact IHrest].
Qed.

Lemma strip_prefix_app base rel : strip_prefix base (base ++ rel) = Some rel.
Proof.
  induction base as [| b base IH]; simpl; [by destruct rel |].
  by rewrite String.eqb_refl.
Qed.

Lemma relative_to_app base rel : relative_to (base ++ rel) base = inr rel.
Proof. unfold relative_to. by rewrite strip_prefix_app. Qed.

Lemma elem_of_insert_sorted x y l : x ∈ insert_sorted y l ↔ x = y ∨ x ∈ l.
Proof.
  induction l as [| z l IH]; simpl.
  - rewrite list_elem_of_singleton, elem_of_nil. tauto.
  - destruct (path_leb y z); rewrite !elem_of_cons; [tauto |].
    rewrite IH. tauto.
Qed.

Lemma elem_of_sorted x l : x ∈ sorted l ↔ x ∈ l.
Proof.
  induction l as [| y l IH]; simpl; [done |].
  by rewrite elem_of_insert_sorted, IH, elem_of_cons.
Qed.

Section DiscoveryProperties.

Variable fnmatch : string → string → bool.

Lemma any_fnmatch_false s patterns :
  any_fnmatch fnmatch s patterns = false ↔ ∀ pat, pat ∈ patterns → fnmatch s pat = false.
Proof.
  unfold any_fnmatch. induction patterns as [| q patterns IH]; simpl.
  - split; [intros _ pat Hpat; by apply elem_of_nil in Hpat | done].
  - rewrite orb_false_iff, IH. split.
    + intros [Hq Hrest] pat [-> | Hpat]%elem_of_cons; auto.
    + intros H. split; [apply H; left | intros pat Hpat; apply H; by right].
Qed.

(** The files [os.walk] yields are the files of the tree that lie below
    directories whose names match no exclude pattern. *)
Lemma walk_files excl root t r f :
  (∃ fns, (r, fns) ∈ walk fnmatch excl root t ∧ f ∈ fns) ↔
  ∃ dirs, r = root ++ dirs ∧
          Forall (λ d, any_fnmatch fnmatch d excl = false) dirs ∧
          in_tree t dirs f.
Proof.
  split.
  - revert root. induction t as [filenames subdirs IH] using dirtree_induction.
    intros root (fns & Hin & Hf). simpl in Hin.
    apply elem_of_cons in Hin as [[= -> ->] | Hin].
    + exists []. rewrite app_nil_r. repeat split; [constructor | by constructor].
    + apply list_elem_of_In, in_flat_map in Hin as ([d sub] & Hsub & Hin).
      apply list_elem_of_In in Hsub.
      destruct (any_fnmatch fnmatch d excl) eqn:Hd; simpl in Hin; [done |].
      rewrite Forall_forall in IH. specialize (IH _ Hsub (joinpath root d)).
      simpl in IH. destruct IH as (dirs & -> & Hdirs & Htree).
      { exists fns. split; [by apply list_elem_of_In | done]. }
      exists (d :: dirs). unfold joinpath. rewrite <- app_assoc.
      repeat split; [by constructor | by econstructor].
  - intros (dirs & -> & Hdirs & Htree). revert root Hdirs.
    induction Htree as [filenames subdirs f Hf | filenames subdirs d sub dirs f Hsub Htree IH];
      intros root Hdirs.
    + exists filenames. rewrite app_nil_r. split; [simpl; by left | done].
    + apply Forall_cons in Hdirs as [Hd Hdirs].
      destruct (IH (joinpath root d) Hdirs) as (fns & Hin & Hf).
      exists fns. split; [| done]. simpl. right.
      apply list_elem_of_In, in_flat_map. exists (d, sub).
      split; [by apply list_elem_of_In |].
      rewrite Hd. simpl. apply list_elem_of_In.
      unfold joinpath in Hin. by rewrite <- app_assoc in Hin.
Qed.

(** What [discover_files] returns: the files of the tree below
    directories whose names match no exclude pattern, whose own name
    matches no exclude pattern, whose name or path relative to the root
    matches an include pattern, and which [should_check_file] accepts. *)
Lemma discover_files_iff st project_root tree include exclude p :
  p ∈ discover_files fnmatch st project_root tree include exclude ↔
  ∃ dirs f,
    p = project_root ++ dirs ++ [f] ∧
    in_tree tree dirs f ∧
    Forall (λ d, any_fnmatch fnmatch d (exclude_list exclude) = false) dirs ∧
    any_fnmatch fnmatch f (exclude_list exclude) = false ∧
    (∃ pat, pat ∈ include_list include ∧
            (fnmatch f pat = true ∨ fnmatch (str_of_path (dirs ++ [f])) pat = true)) ∧
    should_check_file st p = true.
Proof.
  unfold discover_files. rewrite elem_of_sorted, list_elem_of_In, in_flat_map.
  assert (Hkeep : ∀ dirs f,
    keep_file fnmatch st project_root (exclude_list exclude) (include_list include)
      (project_root ++ dirs) f = true ↔
    any_fnmatch fnmatch f (exclude_list exclude) = false ∧
    (∃ pat, pat ∈ include_list include ∧
            (fnmatch f pat = true ∨ fnmatch (str_of_path (dirs ++ [f])) pat = true)) ∧
    should_check_file st (project_root ++ dirs ++ [f]) = true).
  { intros dirs f. unfold keep_file, joinpath. rewrite <- app_assoc.
    destruct (any_fnmatch fnmatch f (exclude_list exclude));
      [split; [done | by intros [? _]] |].
    destruct (existsb _ (include_list include)) eqn:Hinc; simpl.
    - apply existsb_exists in Hinc as (pat & Hpat & Hm).
      unfold include_match in Hm. rewrite relative_to_app in Hm.
      apply orb_true_iff in Hm. apply list_elem_of_In in Hpat.
      split; [intros Hchk; split; [done | split; [by exists pat | done]] |].
      by intros (_ & _ & Hchk).
    - split; [done |]. intros (_ & (pat & Hpat & Hm) & _).
      apply not_true_iff_false in Hinc. destruct Hinc.
      apply existsb_exists. exists pat. split; [by apply list_elem_of_In |].
      unfold include_match. rewrite relative_to_app. by apply orb_true_iff. }
  split.
  - intros ([r fns] & Hin & Hp). apply list_elem_of_In in Hin, Hp.
    apply list_elem_of_fmap in Hp as (f & -> & Hf).
    apply list_elem_of_filter in Hf as [Hk Hf].
    destruct (proj1 (walk_files (exclude_list exclude) project_root tree r f))
      as (dirs & -> & Hdirs & Htree); [by eauto |].
    apply Hkeep in Hk as (Hex & Hinc & Hchk).
    exists dirs, f. unfold joinpath. rewrite <- app_assoc. done.
  - intros (dirs & f & -> & Htree & Hdirs & Hex & Hinc & Hchk).
    destruct (proj2 (walk_files (exclude_list exclude) project_root tree
                       (project_root ++ dirs) f)) as (fns & Hin & Hf); [by eauto |].
    exists (project_root ++ dirs, fns). split; [by apply list_elem_of_In |].
    apply list_elem_of_In, list_elem_of_fmap. exists f.
    split; [unfold joinpath; by rewrite <- app_assoc |].
    apply list_elem_of_filter. split; [| done]. by apply Hkeep.
Qed.

(** C4. No path returned by [discover_files] lies inside an excluded
    directory: every returned path is a file of the tree, and none of the
    directories between the root and the file has a name matching an
    exclude pattern, given by the caller or built in. *)
Theorem discover_files_prunes_excluded st project_root tree include exclude p :
  p ∈ discover_files fnmatch st project_root tree include exclude →
  (∃ dirs f, p = project_root ++ dirs ++ [f] ∧ in_tree tree dirs f) ∧
  (∀ dirs f, p = project_root ++ dirs ++ [f] →
     ∀ d pat, d ∈ dirs → pat ∈ exclude_list exclude → fnmatch d pat = false).
Proof.
  intros (dirs & f & -> & Htree & Hdirs & _)%discover_files_iff.
  split; [by eauto |].
  intros dirs' f' Heq d pat Hd Hpat.
  apply app_inv_head in Heq. apply app_inj_tail in Heq as [<- <-].
  rewrite Forall_forall in Hdirs.
  by apply (proj1 (any_fnmatch_false d (exclude_list exclude)) (Hdirs d Hd)).
Qed.

(** C5. A file is returned by [discover_files] exactly when it is a file
    of the tree below directories with no excluded name, its bare name
    matches no exclude pattern, its bare name or its path relative to the
    root matches some include pattern, and it is checkable. Exclude
    patterns are never tried on the relative path. *)
Theorem discover_files_matching st project_root tree include exclude p :
  p ∈ discover_files fnmatch st project_root tree include exclude ↔
  ∃ dirs f,
    p = project_root ++ dirs ++ [f] ∧
    in_tree tree dirs f ∧
    (∀ d pat, d ∈ dirs → pat ∈ exclude_list exclude → fnmatch d pat = false) ∧
    (∀ pat, pat ∈ exclude_list exclude → fnmatch f pat = false) ∧
    (∃ pat, pat ∈ include_list include ∧
            (fnmatch f pat = true ∨ fnmatch (str_of_path (dirs ++ [f])) pat = true)) ∧
    should_check_file st p = true.
Proof.
  rewrite discover_files_iff. split.
  - intros (dirs & f & Hp & Htree & Hdirs & Hex & Hinc & Hchk).
    exists dirs, f. repeat split; try done.
    + intros d pat Hd Hpat. rewrite Forall_forall in Hdirs.
      by apply (proj1 (any_fnmatch_false d (exclude_list exclude)) (Hdirs d Hd)).
    + by apply any_fnmatch_false.
  - intros (dirs & f & Hp & Htree & Hdirs & Hex & Hinc & Hchk).
    exists dirs, f. repeat split; try done.
    + apply Forall_forall. intros d Hd. apply any_fnmatch_false. eauto.
    + by apply any_fnmatch_false.
Qed.

End DiscoveryProperties.

(** ** The batch check and the command line *)

Lemma filter_noncompliant_nonempty (st : fs) (files : list path) :
  (∃ f, f ∈ files ∧ has_eof_newline st f = false) →
  filter (λ f, has_eof_newline st f = false) files ≠ [].
Proof.
  intros (f & Hf & Hnc) Hnil.
  assert (Hin : f ∈ filter (λ f, has_eof_newline st f = false) files)
    by (by apply list_elem_of_filter).
  rewrite Hnil in Hin. by apply elem_of_nil in Hin.
Qed.

(** [check_files] partitions its input by [has_eof_newline], keeps the
    order, leaves the file system alone, and prints the marker lines when
    asked; with markers, the files must lie below the project root. *)
Lemma check_files_run project_root files sd s :
  (sd = true → Forall (below project_root) files) →
  check_files project_root files sd s =
    (inr (filter (λ f, has_eof_newline (st_fs s) f = true) files,
          filter (λ f, has_eof_newline (st_fs s) f = false) files),
     State (st_fs s)
       (st_out s ++ if sd then detail_lines (st_fs s) project_root files else [])).
Proof.
  revert s. induction files as [| f files IH]; intros [st out] Hbelow.
  - simpl. destruct sd; by rewrite app_nil_r.
  - assert (Hrest : sd = true → Forall (below project_root) files).
    { intros Hsd. specialize (Hbelow Hsd). by apply Forall_cons in Hbelow as [_ ?]. }
    simpl. unfold bind at 1. unfold get_fs at 1. simpl.
    rewrite !filter_cons.
    destruct (has_eof_newline st f) eqn:Hf; simpl.
    + destruct sd; simpl.
      * pose proof (Hbelow eq_refl) as Hb. apply Forall_cons in Hb as [[rel Hrel] _].
        unfold bind, lift, relative_to, print, ret. rewrite Hrel. simpl.
        rewrite (IH (State st (out ++ ["✅ " +:+ str_of_path rel])) Hrest). simpl.
        by rewrite <- app_assoc.
      * unfold bind, ret. simpl. rewrite (IH (State st out) Hrest). simpl. done.
    + destruct sd; simpl.
      * pose proof (Hbelow eq_refl) as Hb. apply Forall_cons in Hb as [[rel Hrel] _].
        unfold bind, lift, relative_to, print, ret. rewrite Hrel. simpl.
        rewrite (IH (State st (out ++ ["❌ " +:+ str_of_path rel +:+ " - Missing EOF newline"]))
                   Hrest). simpl.
        by rewrite <- app_assoc.
      * unfold bind, ret. simpl. rewrite (IH (State st out) Hrest). simpl. done.
Qed.

#[local] Arguments check_files : simpl never.
#[local] Arguments select_files : simpl never.
#[local] Arguments run_check : simpl never.
#[local] Arguments run_fix_action : simpl never.
#[local] Arguments discover_files : simpl never.
#[local] Arguments has_eof_newline : simpl never.
#[local] Arguments should_check_file : simpl never.
#[local] Arguments detail_lines : simpl never.
#[local] Arguments exists_ : simpl never.

Section MainProperties.

Variable fnmatch : string → string → bool.

(** File selection only reads: when it returns, the state is the one it
    started from. *)
Lemma select_files_state e a project_root s files s1 :
  select_files fnmatch e a project_root s = (inr files, s1) → s1 = s.
Proof.
  unfold select_files. destruct (filter_from_file a) as [list_name |].
  - unfold try_except_Exception, read_lines, read_file, files_from_list, get_fs,
      print, sys_exit, raise, bind, ret. simpl.
    match goal with
    | |- context [open_rb ?st ?p] => destruct (open_rb st p) as [err | content]
    end; simpl.
    + destruct err; simpl; intros; simplify_eq.
    + intros; by simplify_eq.
  - unfold bind, get_fs, ret. intros; by simplify_eq.
Qed.

(** C3, as the code has it. In [--check] mode with [--quiet], a run that
    finds a non-compliant file prints the per-file markers when
    [--show-details] is set (the files then lie below the project root),
    then the remediation hint and, without [--backup], the advice to add
    it, and exits with status 1; the "Files missing EOF newline" list is
    not printed. *)
Theorem quiet_check_prints_hint_only e a s files s1 :
  let project_root := parent (parent (script_path e)) in
  check a = true →
  quiet a = true →
  exists_ (st_fs s) (joinpath project_root "CMakeLists.txt") = true →
  select_files fnmatch e a project_root s = (inr files, s1) →
  (∃ f, f ∈ files ∧ has_eof_newline (st_fs s) f = false) →
  (show_details a = true → Forall (below project_root) files) →
  main fnmatch e a s =
    (inl (SystemExit 1),
     State (st_fs s)
       (st_out s
        ++ (if show_details a then detail_lines (st_fs s) project_root files else [])
        ++ [nl +:+ "To fix all files: python tools/check_eof_newline.py --fix"]
        ++ (if backup a then [] else ["Add --backup to create backup files before fixing"]))).
Proof.
  intros project_root Hcheck Hquiet Hmarker Hsel Hbad Hbelow.
  pose proof (select_files_state _ _ _ _ _ _ Hsel) as ->.
  assert (Hne : files ≠ []).
  { destruct Hbad as (f & Hf & _). intros ->. by apply elem_of_nil in Hf. }
  unfold main. fold project_root. unfold bind at 1. unfold get_fs at 1.
  rewrite Hmarker. simpl. unfold bind at 1. simpl.
  rewrite Hquiet. simpl. unfold bind at 1. simpl.
  unfold bind at 1. rewrite Hsel.
  rewrite (bool_decide_eq_false_2 _ Hne). simpl. unfold bind at 1. simpl.
  unfold bind at 1. simpl. rewrite Hcheck.
  unfold run_check, bind at 1. rewrite (check_files_run _ _ _ _ Hbelow). simpl.
  rewrite Hquiet. simpl. unfold bind at 1. simpl.
  rewrite (bool_decide_eq_false_2 _ (filter_noncompliant_nonempty _ _ Hbad)). simpl.
  rewrite andb_false_r. simpl.
  unfold bind, print, when, sys_exit, raise, ret.
  destruct (backup a), (show_details a); simpl; by rewrite <- ?app_assoc.
Qed.

(** The result of file selection does not depend on what has been printed. *)
Lemma select_files_output e a project_root st out out' files s1 :
  select_files fnmatch e a project_root (State st out) = (inr files, s1) →
  select_files fnmatch e a project_root (State st out') = (inr files, State st out').
Proof.
  unfold select_files. destruct (filter_from_file a) as [list_name |].
  - unfold try_except_Exception, read_lines, read_file, files_from_list, get_fs,
      print, sys_exit, raise, bind, ret. simpl.
    match goal with
    | |- context [open_rb ?st ?p] => destruct (open_rb st p) as [err | content]
    end; simpl.
    + destruct err; simpl; intros; simplify_eq.
    + intros; by simplify_eq.
  - unfold bind, get_fs, ret. simpl. intros; by simplify_eq.
Qed.

Lemma prints_ret : prints (ret tt).
Proof. intros s. exists []. destruct s. unfold ret. simpl. by rewrite app_nil_r. Qed.

Lemma prints_print line : prints (print line).
Proof. intros s. by exists [line]. Qed.

Lemma prints_seq (m1 m2 : M unit) : prints m1 → prints m2 → prints (m1 ;;; m2).
Proof.
  intros H1 H2 s. destruct (H1 s) as [out1 E1].
  destruct (H2 (State (st_fs s) (st_out s ++ out1))) as [out2 E2].
  exists (out1 ++ out2). unfold bind. rewrite E1, E2. simpl. by rewrite app_assoc.
Qed.

Lemma prints_when b m : prints m → prints (when b m).
Proof. destruct b; [done | intros _; apply prints_ret]. Qed.

Lemma prints_relative p project_root (k : path → M unit) :
  below project_root p → (∀ rel, prints (k rel)) →
  prints (rel <- lift (relative_to p project_root) ;; k rel).
Proof.
  intros [rel Hrel] Hk s. unfold bind, lift, relative_to, ret. rewrite Hrel.
  apply Hk.
Qed.

Lemma exits_sys_exit {A} code : exits code (sys_exit (A := A) code).
Proof. intros s. exists []. destruct s. unfold sys_exit, raise. simpl. by rewrite app_nil_r. Qed.

Lemma exits_seq {A} code (m1 : M unit) (m2 : M A) :
  prints m1 → exits code m2 → exits code (m1 ;;; m2).
Proof.
  intros H1 H2 s. destruct (H1 s) as [out1 E1].
  destruct (H2 (State (st_fs s) (st_out s ++ out1))) as [out2 E2].
  exists (out1 ++ out2). unfold bind. rewrite E1, E2. simpl. by rewrite app_assoc.
Qed.

Lemma prints_listing project_root (l : list path) :
  Forall (below project_root) l →
  prints (foldr
            (λ file_path k,
               rel <- lift (relative_to file_path project_root) ;;
               print ("  " +:+ str_of_path rel) ;;;
               k)
            (ret tt) l).
Proof.
  induction 1 as [| p l Hp Hl IH]; simpl; [apply prints_ret |].
  apply prints_relative; [done |]. intros rel.
  apply prints_seq; [apply prints_print | exact IH].
Qed.

Ltac solve_prints :=
  repeat first
    [ apply prints_ret | apply prints_print | apply prints_when | apply prints_seq ].

Lemma all_compliant_filter (st : fs) (files : list path) :
  filter (λ f, has_eof_newline st f = false) files = [] ↔
  Forall (λ f, has_eof_newline st f = true) files.
Proof.
  induction files as [| f files IH]; [by split |].
  rewrite filter_cons, Forall_cons. destruct (has_eof_newline st f) eqn:Hf.
  - rewrite decide_False by done. rewrite IH. tauto.
  - rewrite decide_True by done. split; [done | intros [? _]; done].
Qed.

(** The [--check] action on files below the project root ends in
    [sys.exit]: with 0 when every file is compliant, with 1 otherwise. *)
Lemma run_check_exits a project_root files s :
  Forall (below project_root) files →
  ∃ out,
    run_check a project_root files s =
      (inl (SystemExit
              (if bool_decide (Forall (λ f, has_eof_newline (st_fs s) f = true) files)
               then 0 else 1)),
       State (st_fs s) (st_out s ++ out)).
Proof.
  intros Hbelow. unfold run_check, bind at 1.
  rewrite (check_files_run _ _ _ _ (λ _, Hbelow)).
  set (lines := if show_details a then _ else _).
  set (bad := filter (λ f, has_eof_newline (st_fs s) f = false) files).
  assert (Hbad : Forall (below project_root) (take 10 bad)).
  { apply Forall_take. unfold bad. rewrite Forall_forall in Hbelow |- *.
    intros f [_ Hf]%list_elem_of_filter. by apply Hbelow. }
  cbv beta iota zeta. unfold fst, snd.
  destruct (decide (bad = [])) as [Hnil | Hnil].
  - rewrite (bool_decide_eq_true_2 _ Hnil).
    rewrite (bool_decide_eq_true_2 _ (proj1 (all_compliant_filter _ _) Hnil)).
    edestruct (exits_seq (A := unit) 0) as [out Hout]; last first.
    { exists (lines ++ out). rewrite Hout. simpl. by rewrite app_assoc. }
    + simpl. apply exits_seq; [solve_prints | apply exits_sys_exit].
    + solve_prints.
  - rewrite (bool_decide_eq_false_2 _ Hnil).
    rewrite bool_decide_eq_false_2 by (by rewrite <- all_compliant_filter).
    edestruct (exits_seq (A := unit) 1) as [out Hout]; last first.
    { exists (lines ++ out). rewrite Hout. simpl. by rewrite app_assoc. }
    + simpl. apply exits_seq.
      { apply prints_when. apply prints_seq; [apply prints_print |].
        apply prints_seq; [by apply prints_listing | solve_prints]. }
      apply exits_seq; [solve_prints |].
      apply exits_seq; [solve_prints | apply exits_sys_exit].
    + solve_prints.
Qed.

(** In [--check] mode, once the project marker is there and file selection
    has returned files that lie below the project root (as discovery always
    does), the process exits with status 0 when every selected file is
    compliant, none being the extreme case, and with status 1 otherwise. *)
Lemma check_mode_exit_status e a s files s1 :
  let project_root := parent (parent (script_path e)) in
  check a = true →
  exists_ (st_fs s) (joinpath project_root "CMakeLists.txt") = true →
  select_files fnmatch e a project_root s = (inr files, s1) →
  Forall (below project_root) files →
  ∃ out,
    main fnmatch e a s =
      (inl (SystemExit
              (if bool_decide (Forall (λ f, has_eof_newline (st_fs s) f = true) files)
               then 0 else 1)),
       State (st_fs s) (st_out s ++ out)).
Proof.
  intros project_root Hcheck Hmarker Hsel Hbelow.
  unfold main. fold project_root. unfold bind at 1. unfold get_fs at 1.
  rewrite Hmarker. simpl. unfold bind at 1. simpl.
  unfold bind at 1.
  edestruct (prints_when (negb (quiet a))) as [out1 E1]; last rewrite E1.
  { solve_prints. }
  unfold bind at 1. destruct s as [st out0]. simpl.
  rewrite (select_files_output _ _ _ _ _ (out0 ++ out1) _ _ Hsel).
  destruct (decide (files = [])) as [-> | Hne].
  - rewrite (bool_decide_eq_true_2 ([] = []) eq_refl). simpl.
    exists (out1 ++ ["No files found matching criteria"]).
    unfold bind, print, sys_exit, raise. simpl. by rewrite app_assoc.
  - rewrite (bool_decide_eq_false_2 _ Hne). simpl. unfold bind at 1. simpl.
    unfold bind at 1.
    edestruct (prints_when (negb (quiet a))) as [out2 E2]; last rewrite E2.
    { solve_prints. }
    simpl. rewrite Hcheck.
    destruct (run_check_exits a project_root files
                (State st ((out0 ++ out1) ++ out2)) Hbelow) as [out3 E3].
    exists (out1 ++ out2 ++ out3). rewrite E3. simpl. by rewrite !app_assoc.
Qed.

End MainProperties.

(** ** Worked runs on the sample project *)

Ltac compute_elem := apply (bool_decide_unpack _); vm_compute; exact I.
Ltac compute_not_elem :=
  let H := fresh in intros H; apply (bool_decide_pack _) in H; vm_compute in H; exact H.

(** C3, as stated, fails: with [--check --quiet] on the sample project the
    file [b.py] is found non-compliant and the process exits with status 1,
    but the output is the remediation hint and the backup advice only; no
    line names [b.py] and the list heading is not printed. *)
Lemma quiet_check_omits_file_list :
  let a := Args true false None None None false false true in
  let run := main simple_fnmatch sample_env a (State sample_fs []) in
  (sample_root ++ ["b.py"])
    ∈ discover_files simple_fnmatch sample_fs sample_root sample_tree None None ∧
  has_eof_newline sample_fs (sample_root ++ ["b.py"]) = false ∧
  run.1 = inl (SystemExit 1) ∧
  st_out run.2 =
    [nl +:+ "To fix all files: python tools/check_eof_newline.py --fix";
     "Add --backup to create backup files before fixing"] ∧
  ("  b.py" ∉ st_out run.2) ∧
  ((nl +:+ "Files missing EOF newline:") ∉ st_out run.2).
Proof.
  split; [compute_elem |].
  split; [vm_compute; reflexivity |].
  split; [vm_compute; reflexivity |].
  split; [vm_compute; reflexivity |].
  split; compute_not_elem.
Qed.

(** C8, where the code departs from it. The list file [staged.txt] names
    [/tmp/x.txt], which exists, is checkable and ends in a newline; with
    [--check --show-details] the marker line for it needs its path relative
    to the project root, [relative_to] raises [ValueError], nobody catches
    it, and the process ends with status 1 although every checked file is
    compliant. *)
Lemma check_details_outside_root_raises :
  let a := Args true false None (Some "staged.txt") None false true false in
  let run := main simple_fnmatch sample_env a (State stray_fs []) in
  select_files simple_fnmatch sample_env a sample_root (State stray_fs [])
    = (inr [["/"; "tmp"; "x.txt"]], State stray_fs []) ∧
  has_eof_newline stray_fs ["/"; "tmp"; "x.txt"] = true ∧
  run.1 = inl (ValueError "/tmp/x.txt is not in the subpath of /proj") ∧
  exit_status run.1 = 1%Z.
Proof.
  split; [vm_compute; reflexivity |].
  split; [vm_compute; reflexivity |].
  split; vm_compute; reflexivity.
Qed.

(** ** The theorems at work on the sample project *)

(** [src/c.h] ends in carriage return + line feed and is compliant. *)
Lemma has_eof_newline_last_byte_witness :
  open_rb sample_fs (sample_root ++ ["src"; "c.h"]) = inr [x69; x0d; x0a] ∧
  has_eof_newline sample_fs (sample_root ++ ["src"; "c.h"]) = true.
Proof.
  assert (H : open_rb sample_fs (sample_root ++ ["src"; "c.h"]) = inr [x69; x0d; x0a])
    by (vm_compute; reflexivity).
  split; [exact H |].
  exact (proj2 (proj2 (has_eof_newline_last_byte _ _ _ H)) [x69] eq_refl).
Defined.

(** [data.bin] has no known extension or name and holds a null byte. *)
Lemma should_check_file_content_heuristic_witness :
  (lower (suffix (sample_root ++ ["data.bin"])) ∉ text_extensions) ∧
  (name (sample_root ++ ["data.bin"]) ∉ special_files) ∧
  open_rb sample_fs (sample_root ++ ["data.bin"]) = inr [x00; x01] ∧
  should_check_file sample_fs (sample_root ++ ["data.bin"]) = false.
Proof.
  assert (H1 : lower (suffix (sample_root ++ ["data.bin"])) ∉ text_extensions)
    by compute_not_elem.
  assert (H2 : name (sample_root ++ ["data.bin"]) ∉ special_files)
    by compute_not_elem.
  assert (H3 : open_rb sample_fs (sample_root ++ ["data.bin"]) = inr [x00; x01])
    by (vm_compute; reflexivity).
  repeat (split; [assumption |]).
  apply (proj1 (proj2 (should_check_file_content_heuristic _ _ _ H1 H2 H3))).
  compute_elem.
Defined.

(** [locked.dat] cannot be read. *)
Lemma io_failure_yields_false_witness :
  open_rb sample_fs (sample_root ++ ["locked.dat"])
    = inl (OSError EACCES (sample_root ++ ["locked.dat"])) ∧
  has_eof_newline sample_fs (sample_root ++ ["locked.dat"]) = false ∧
  should_check_file sample_fs (sample_root ++ ["locked.dat"]) = false.
Proof.
  assert (H : open_rb sample_fs (sample_root ++ ["locked.dat"])
              = inl (OSError EACCES (sample_root ++ ["locked.dat"])))
    by (vm_compute; reflexivity).
  split; [exact H |].
  destruct (io_failure_yields_false _ _ _ H) as [Hn Hc].
  split; [exact Hn |]. rewrite Hc. vm_compute. reflexivity.
Defined.

(** Fixing [b.py], with a backup. *)
Lemma fix_appends_newline_idempotent_witness :
  sample_fs !! (sample_root ++ ["b.py"]) = Some (text_file [x78; x3d; x31]) ∧
  can_backup sample_fs (sample_root ++ ["b.py"]) = true ∧
  ∃ st' st'',
    fix_eof_newline (sample_root ++ ["b.py"]) true (State sample_fs [])
      = (inr true, State st' []) ∧
    st' !! (sample_root ++ ["b.py"]) = Some (text_file [x78; x3d; x31; x0a]) ∧
    fix_eof_newline (sample_root ++ ["b.py"]) true (State st' [])
      = (inr true, State st'' []) ∧
    st'' !! (sample_root ++ ["b.py"]) = st' !! (sample_root ++ ["b.py"]) ∧
    (true = false → st'' = st').
Proof.
  assert (H : sample_fs !! (sample_root ++ ["b.py"]) = Some (text_file [x78; x3d; x31]))
    by (vm_compute; reflexivity).
  assert (Hb : can_backup sample_fs (sample_root ++ ["b.py"]) = true)
    by (vm_compute; reflexivity).
  split; [exact H |]. split; [exact Hb |].
  apply (fix_appends_newline_idempotent sample_fs [] (sample_root ++ ["b.py"])
           (File [x78; x3d; x31] true true) true H);
    first [reflexivity | discriminate | (intros _; exact Hb)].
Defined.

(** Fixing [a.txt], which already ends in a newline, with a backup. *)
Lemma backup_written_before_checks_witness :
  sample_fs !! (sample_root ++ ["a.txt"]) = Some (text_file [x68; x69; x0a]) ∧
  can_backup sample_fs (sample_root ++ ["a.txt"]) = true ∧
  fix_eof_newline (sample_root ++ ["a.txt"]) true (State sample_fs [])
    = (inr true,
       State (<[sample_root ++ ["a.txt.bak"] := text_file [x68; x69; x0a]]> sample_fs) []).
Proof.
  assert (H : sample_fs !! (sample_root ++ ["a.txt"]) = Some (text_file [x68; x69; x0a]))
    by (vm_compute; reflexivity).
  assert (Hb : can_backup sample_fs (sample_root ++ ["a.txt"]) = true)
    by (vm_compute; reflexivity).
  split; [exact H |]. split; [exact Hb |].
  refine (proj1 (proj2 (backup_written_before_checks sample_fs []
                          (sample_root ++ ["a.txt"]) _ H eq_refl Hb) _)).
  right. left. reflexivity.
Defined.

(** [src] is not writable, so the backup of [src/c.h] cannot be created. *)
Lemma backup_failure_leaves_original_witness :
  with_suffix (sample_root ++ ["src"; "c.h"]) (suffix (sample_root ++ ["src"; "c.h"]) +:+ ".bak")
    = inr (sample_root ++ ["src"; "c.h.bak"]) ∧
  copy2 sample_fs (sample_root ++ ["src"; "c.h"]) (sample_root ++ ["src"; "c.h.bak"])
    = inl (OSError EACCES (sample_root ++ ["src"; "c.h.bak"])) ∧
  fix_eof_newline (sample_root ++ ["src"; "c.h"]) true (State sample_fs [])
    = (inr false,
       State sample_fs
         ["Error fixing /proj/src/c.h: [Errno 13] Permission denied: '/proj/src/c.h.bak'"]).
Proof.
  assert (H1 : with_suffix (sample_root ++ ["src"; "c.h"])
                 (suffix (sample_root ++ ["src"; "c.h"]) +:+ ".bak")
               = inr (sample_root ++ ["src"; "c.h.bak"]))
    by (vm_compute; reflexivity).
  assert (H2 : copy2 sample_fs (sample_root ++ ["src"; "c.h"]) (sample_root ++ ["src"; "c.h.bak"])
               = inl (OSError EACCES (sample_root ++ ["src"; "c.h.bak"])))
    by (vm_compute; reflexivity).
  split; [exact H1 |]. split; [exact H2 |].
  exact (backup_failure_leaves_original sample_fs [] _ _ _ H1 H2).
Defined.

(** [src/c.h] is discovered; [src] matches no exclude pattern. *)
Lemma discover_files_prunes_excluded_witness :
  (sample_root ++ ["src"; "c.h"])
    ∈ discover_files simple_fnmatch sample_fs sample_root sample_tree None None ∧
  (∀ pat, pat ∈ exclude_list None → simple_fnmatch "src" pat = false).
Proof.
  assert (H : (sample_root ++ ["src"; "c.h"])
                ∈ discover_files simple_fnmatch sample_fs sample_root sample_tree None None)
    by compute_elem.
  split; [exact H |]. intros pat Hpat.
  apply (proj2 (discover_files_prunes_excluded simple_fnmatch _ _ _ _ _ _ H)
           ["src"] "c.h" eq_refl "src" pat); [| exact Hpat].
  by left.
Defined.

(** The quiet check of the sample project. *)
Lemma quiet_check_prints_hint_only_witness :
  let a := Args true false None None None false false true in
  let files :=
    [sample_root ++ ["CMakeLists.txt"]; sample_root ++ ["a.txt"]; sample_root ++ ["b.py"];
     sample_root ++ ["notes"]; sample_root ++ ["src"; "c.h"]] in
  select_files simple_fnmatch sample_env a sample_root (State sample_fs [])
    = (inr files, State sample_fs []) ∧
  has_eof_newline sample_fs (sample_root ++ ["b.py"]) = false ∧
  main simple_fnmatch sample_env a (State sample_fs []) =
    (inl (SystemExit 1),
     State sample_fs
       [nl +:+ "To fix all files: python tools/check_eof_newline.py --fix";
        "Add --backup to create backup files before fixing"]).
Proof.
  intros a files.
  assert (Hsel : select_files simple_fnmatch sample_env a sample_root (State sample_fs [])
                 = (inr files, State sample_fs []))
    by (vm_compute; reflexivity).
  assert (Hbad : has_eof_newline sample_fs (sample_root ++ ["b.py"]) = false)
    by (vm_compute; reflexivity).
  split; [exact Hsel |]. split; [exact Hbad |].
  apply (quiet_check_prints_hint_only simple_fnmatch sample_env a (State sample_fs [])
           files (State sample_fs []) eq_refl eq_refl).
  - vm_compute. reflexivity.
  - exact Hsel.
  - exists (sample_root ++ ["b.py"]). split; [compute_elem | exact Hbad].
  - discriminate.
Defined.

(* ================================================================== *)
(** * Further properties of the code *)

(** ** [fix_eof_newline] in general *)

Lemma with_suffix_bak_inv p bp :
  with_suffix p (suffix p +:+ ".bak") = inr bp →
  bp = backup_path p ∧ name p ≠ "".
Proof.
  unfold with_suffix, backup_path, suffix.
  destruct (str_contains "/" _); [done |].
  destruct (_ || _); [done |].
  destruct (String.eqb_spec (name p) "") as [| Hname]; [done |].
  intros [= <-]. split; [| done]. f_equal. f_equal.
  destruct (String.eqb_spec (suffix_of_name (name p)) "") as [-> | _]; [done |].
  by rewrite <- str_append_assoc, suffix_of_name_strip.
Qed.

Lemma open_wb_inr st p content st' :
  open_wb st p content = inr st' →
  ∃ r, st' = <[p := NFile (File content r true)]> st.
Proof.
  unfold open_wb. intros H.
  destruct (st !! p) as [[g | w] |].
  - destruct (f_writable g); simplify_eq. eauto.
  - done.
  - destruct (st !! parent p) as [[g | [|]] |]; simplify_eq. eauto.
Qed.

Lemma copy2_inr st src dst st1 :
  copy2 st src dst = inr st1 →
  ∃ f, st !! src = Some (NFile f) ∧ f_readable f = true ∧
       st1 = <[copy2_target st src dst := NFile f]> st.
Proof.
  unfold copy2. intros H.
  destruct (st !! src) as [[f | w] |]; [| done ..].
  destruct (f_readable f) eqn:Hr; [| done].
  destruct (open_wb st _ (f_data f)) as [e | st2] eqn:Hwb; [done |].
  apply open_wb_inr in Hwb as [r ->]. simplify_eq.
  exists f. by rewrite insert_insert_eq.
Qed.



Lemma open_rb_inr st p content :
  open_rb st p = inr content →
  ∃ f, st !! p = Some (NFile f) ∧ f_readable f = true ∧ f_data f = content.
Proof.
  unfold open_rb. destruct (st !! p) as [[f | w] |]; [| done ..].
  destruct (f_readable f) eqn:Hr; [| done]. intros [= <-]. eauto.
Qed.

Lemma open_rb_oserror st p e : open_rb st p = inl e → ∃ c q, e = OSError c q.
Proof.
  unfold open_rb. destruct (st !! p) as [[f | w] |]; [| intros [= <-]; eauto ..].
  destruct (f_readable f); [done | intros [= <-]; eauto].
Qed.

(** What the part of [fix_eof_newline] after the backup does, started on a
    file system [st1]. *)
Lemma fix_body st1 out p :
  (∃ line,
     fix_eof_newline p false (State st1 out) = (inr false, State st1 (out ++ [line]))) ∨
  (∃ st',
     fix_eof_newline p false (State st1 out) = (inr true, State st' out) ∧
     has_eof_newline st' p = true ∧
     (has_eof_newline st1 p = true → st' = st1) ∧
     (∀ q, q ≠ p → st' !! q = st1 !! q)).
Proof.
  run_fix. destruct (open_rb st1 p) as [e | content] eqn:Hopen.
  - left. destruct (open_rb_oserror _ _ _ Hopen) as (c & q & ->). simpl. eauto.
  - pose proof (has_eof_newline_read _ _ _ Hopen) as Hhas. simpl.
    destruct (decide (content = [])) as [Hnil | Hnil].
    { rewrite (bool_decide_eq_true_2 _ Hnil). right. exists st1. rewrite Hhas.
      split; [done | split; [| done]]. apply bool_decide_eq_true. by left. }
    rewrite (bool_decide_eq_false_2 _ Hnil).
    destruct (endswith content _) eqn:Hend.
    { right. exists st1. rewrite Hhas.
      split; [done | split; [| done]].
      apply bool_decide_eq_true. right. by apply endswith_newline. }
    simpl. destruct (open_wb st1 p (content ++ [LF])) as [e | st'] eqn:Hwb.
    + left. destruct (open_wb_oserror _ _ _ _ Hwb) as (c & q & ->). simpl. eauto.
    + right. exists st'. simpl. split; [done |].
      destruct (open_rb_inr _ _ _ Hopen) as (f & Hf & Hr & Hd).
      assert (Hst' : st' = <[p := NFile (File (content ++ [LF]) true true)]> st1).
      { unfold open_wb in Hwb. rewrite Hf in Hwb.
        destruct (f_writable f); [| done]. rewrite Hr in Hwb. by simplify_eq. }
      split; [| split].
      * assert (Hopen' : open_rb st' p = inr (content ++ [LF])).
        { unfold open_rb. rewrite Hst', lookup_insert_eq. done. }
        rewrite (has_eof_newline_read _ _ _ Hopen').
        apply bool_decide_eq_true. right. left. apply last_snoc.
      * rewrite Hhas. intros Hc%bool_decide_eq_true.
        destruct Hc as [Hc | Hc]; [done |].
        apply endswith_newline in Hc. congruence.
      * intros q Hq. rewrite Hst'. by rewrite lookup_insert_ne.
Qed.

(** With a backup, [fix_eof_newline] is the copy followed by the call
    without backup. *)
Lemma fix_with_backup st out p :
  fix_eof_newline p true (State st out) =
    match with_suffix p (suffix p +:+ ".bak") with
    | inl e => (inl e, State st out)
    | inr bp =>
        match copy2 st p bp with
        | inl e =>
            (inr false,
             State st (out ++ ["Error fixing " +:+ str_of_path p +:+ ": " +:+ str_of_exn e]))
        | inr st1 => fix_eof_newline p false (State st1 out)
        end
    end.
Proof.
  run_fix. destruct (with_suffix p _) as [e | bp] eqn:Hbp; simpl.
  - unfold with_suffix in Hbp.
    repeat match type of Hbp with
           | (if ?c then _ else _) = _ => destruct c
           end; by simplify_eq.
  - destruct (copy2 st p bp) as [e | st1] eqn:Hcopy; simpl.
    + by destruct (copy2_oserror _ _ _ _ Hcopy) as (c & q & ->).
    + done.
Qed.

Lemma has_eof_newline_lookup st st' p :
  st' !! p = st !! p → has_eof_newline st' p = has_eof_newline st p.
Proof. intros H. unfold has_eof_newline, open_rb. by rewrite H. Qed.

(** X1. Whenever [fix_eof_newline] returns true, with or without backup, the
    file passes [has_eof_newline] afterwards and nothing was printed. *)
Theorem fix_success_makes_compliant p b s s' :
  fix_eof_newline p b s = (inr true, s') →
  has_eof_newline (st_fs s') p = true ∧ st_out s' = st_out s.
Proof.
  destruct s as [st out].
  assert (Hbody : ∀ st1, fix_eof_newline p false (State st1 out) = (inr true, s') →
                         has_eof_newline (st_fs s') p = true ∧ st_out s' = out).
  { intros st1 H. destruct (fix_body st1 out p) as [[line E] | (st' & E & Hhas & _)];
      rewrite E in H; by simplify_eq. }
  destruct b; [| apply Hbody].
  rewrite fix_with_backup.
  destruct (with_suffix p _) as [e | bp]; [done |].
  destruct (copy2 st p bp) as [e | st1]; [done | apply Hbody].
Qed.


(** X3. [fix_eof_newline] touches at most two paths: the file itself and the
    place the backup goes to. *)
Theorem fix_touches_file_and_backup_only p b s r s' q :
  fix_eof_newline p b s = (r, s') →
  q ≠ p →
  q ≠ copy2_target (st_fs s) p (backup_path p) →
  st_fs s' !! q = st_fs s !! q.
Proof.
  destruct s as [st out]. intros Hrun Hq Hqb.
  assert (Hbody : ∀ st1, fix_eof_newline p false (State st1 out) = (r, s') →
                         st_fs s' !! q = st1 !! q).
  { intros st1 H. destruct (fix_body st1 out p) as [[line E] | (st' & E & _ & _ & Hfr)];
      rewrite E in H; simplify_eq; [done | by apply Hfr]. }
  destruct b; [| by apply Hbody].
  rewrite fix_with_backup in Hrun.
  destruct (with_suffix p _) as [e | bp] eqn:Hbp; [by simplify_eq |].
  destruct (with_suffix_bak_inv _ _ Hbp) as [-> Hname].
  destruct (copy2 st p _) as [e | st1] eqn:Hcopy; [by simplify_eq |].
  rewrite (Hbody _ Hrun).
  destruct (copy2_inr _ _ _ _ Hcopy) as (f & _ & _ & ->).
  by rewrite lookup_insert_ne.
Qed.

(** X4. On a file that passes [has_eof_newline], [fix_eof_newline] without
    backup returns true and changes nothing at all. *)
Theorem fix_noop_on_compliant p s :
  has_eof_newline (st_fs s) p = true →
  fix_eof_newline p false s = (inr true, s).
Proof.
  destruct s as [st out]. simpl. intros Hhas.
  destruct (fix_body st out p) as [[line E] | (st' & E & _ & Hsame & _)].
  - exfalso. revert E. run_fix. unfold has_eof_newline in Hhas.
    destruct (open_rb st p) as [e | content] eqn:Hopen; [done |].
    pose proof (has_eof_newline_read _ _ _ Hopen) as Hread.
    unfold has_eof_newline in Hread. rewrite Hopen in Hread. rewrite Hread in Hhas.
    apply bool_decide_eq_true in Hhas. simpl.
    destruct (decide (content = [])) as [Hnil | Hnil].
    { by rewrite (bool_decide_eq_true_2 _ Hnil). }
    rewrite (bool_decide_eq_false_2 _ Hnil).
    destruct Hhas as [Hc | Hc]; [done |].
    by rewrite (proj2 (endswith_newline _) Hc).
  - by rewrite E, (Hsame Hhas).
Qed.

(** ** [fix_files] *)

#[local] Arguments fix_eof_newline : simpl never.

Lemma fix_files_from_spec project_root files :
  Forall (below project_root) files →
  ∀ ok err s,
    ∃ ok' err' s',
      fix_files_from project_root files false ok err s = (inr (ok', err'), s') ∧
      (ok' + err' = ok + err + length files)%nat ∧
      (err ≤ err')%nat ∧
      (∀ p, has_eof_newline (st_fs s) p = true → has_eof_newline (st_fs s') p = true) ∧
      (err' = err → Forall (λ f, has_eof_newline (st_fs s') f = true) files).
Proof.
  induction 1 as [| f files [rel Hrel] _ IH]; intros ok err [st out].
  - exists ok, err, (State st out). simpl. unfold ret.
    repeat split; [lia | lia | done | constructor].
  - simpl. unfold bind at 1.
    destruct (fix_body st out f) as [[line E] | (st' & E & Hhas & _ & Hframe)];
      rewrite E; simpl.
    + unfold bind at 1, lift, relative_to. rewrite Hrel. simpl.
      unfold bind at 1, print. simpl.
      edestruct (IH ok (S err)) as (ok' & err' & s' & Hrun & Hsum & Hle & Hmono & _).
      exists ok', err', s'. rewrite Hrun.
      repeat split; [lia | lia | exact Hmono | lia].
    + unfold bind at 1, lift, relative_to. rewrite Hrel. simpl.
      unfold bind at 1, print. simpl.
      edestruct (IH (S ok) err) as (ok' & err' & s' & Hrun & Hsum & Hle & Hmono & Hall).
      exists ok', err', s'. rewrite Hrun. simpl in Hmono.
      assert (Hstep : ∀ p, has_eof_newline st p = true → has_eof_newline st' p = true).
      { intros p Hp. destruct (decide (p = f)) as [-> | Hne]; [done |].
        by rewrite (has_eof_newline_lookup st st' p (Hframe p Hne)). }
      repeat split; [lia | lia | by auto |].
      intros Herr. constructor; [by apply Hmono | by apply Hall].
Qed.

(** X5. [fix_files] without backup, on files below the project root, goes
    through every file whatever happens to the earlier ones: the two
    counts add up to the number of files, a file that is compliant stays
    so, and when no failure is counted every file is compliant at the
    end. *)
Theorem fix_files_processes_all project_root files s :
  Forall (below project_root) files →
  ∃ success_count error_count s',
    fix_files project_root files false s = (inr (success_count, error_count), s') ∧
    (success_count + error_count = length files)%nat ∧
    (∀ p, has_eof_newline (st_fs s) p = true → has_eof_newline (st_fs s') p = true) ∧
    (error_count = 0%nat → Forall (λ f, has_eof_newline (st_fs s') f = true) files).
Proof.
  intros Hbelow.
  destruct (fix_files_from_spec _ _ Hbelow 0%nat 0%nat s)
    as (ok & err & s' & Hrun & Hsum & _ & Hmono & Hall).
  exists ok, err, s'. unfold fix_files. rewrite Hrun. repeat split; auto.
Qed.

(** ** What a fix leaves of file selection *)

(** Appending the line feed changes neither which paths exist nor which
    files [should_check_file] accepts. *)
Lemma append_newline_keeps_selection (st : fs) p f :
  st !! p = Some (NFile f) → f_readable f = true → f_data f ≠ [] →
  ∀ q,
    should_check_file (<[p := NFile (File (f_data f ++ [LF]) true true)]> st) q
      = should_check_file st q ∧
    exists_ (<[p := NFile (File (f_data f ++ [LF]) true true)]> st) q = exists_ st q.
Proof.
  intros Hf Hr Hne q. unfold should_check_file, exists_, open_rb.
  destruct (decide (q = p)) as [-> | Hq].
  - rewrite lookup_insert_eq, Hf, Hr. simpl. split.
    + destruct (bool_decide (lower (suffix p) ∈ text_extensions)); [done |].
      destruct (bool_decide (name p ∈ special_files)); [done |].
      assert (Hne1 : take 1024 (f_data f) ≠ []).
      { destruct (f_data f); [done |]. intros H. discriminate H. }
      rewrite take_app.
      rewrite (bool_decide_eq_false_2 _ Hne1).
      rewrite bool_decide_eq_false_2 by (by intros [? _]%app_eq_nil).
      f_equal. apply bool_decide_ext. rewrite elem_of_app.
      split; [| by left]. intros [H | H]; [done |].
      destruct (1024 - length (f_data f))%nat as [| k]; simpl in H.
      * by apply elem_of_nil in H.
      * rewrite take_nil in H. by apply list_elem_of_singleton in H.
    + done.
  - by rewrite lookup_insert_ne.
Qed.

Lemma fix_keeps_selection p s r s' :
  fix_eof_newline p false s = (r, s') →
  ∀ q, should_check_file (st_fs s') q = should_check_file (st_fs s) q ∧
       exists_ (st_fs s') q = exists_ (st_fs s) q.
Proof.
  destruct s as [st out]. run_fix.
  destruct (open_rb st p) as [e | content] eqn:Hopen.
  - destruct (open_rb_oserror _ _ _ Hopen) as (c & q' & ->). simpl.
    by intros [= <- <-].
  - simpl. destruct (decide (content = [])) as [Hnil | Hnil].
    { rewrite (bool_decide_eq_true_2 _ Hnil). by intros [= <- <-]. }
    rewrite (bool_decide_eq_false_2 _ Hnil).
    destruct (endswith content _); [by intros [= <- <-] |].
    simpl. destruct (open_wb st p (content ++ [LF])) as [e | st'] eqn:Hwb.
    + destruct (open_wb_oserror _ _ _ _ Hwb) as (c & q' & ->). simpl.
      by intros [= <- <-].
    + simpl. intros [= <- <-]. simpl.
      destruct (open_rb_inr _ _ _ Hopen) as (f & Hf & Hr & <-).
      unfold open_wb in Hwb. rewrite Hf in Hwb.
      destruct (f_writable f); [| done]. rewrite Hr in Hwb. simplify_eq.
      by apply append_newline_keeps_selection.
Qed.

Lemma fix_files_from_keeps_selection project_root files :
  ∀ ok err s r s',
    fix_files_from project_root files false ok err s = (r, s') →
    ∀ q, should_check_file (st_fs s') q = should_check_file (st_fs s) q ∧
         exists_ (st_fs s') q = exists_ (st_fs s) q.
Proof.
  induction files as [| f files IH]; intros ok err s r s'.
  - simpl. unfold ret. by intros [= <- <-].
  - simpl. unfold bind at 1.
    destruct (fix_eof_newline f false s) as [[e | b] s1] eqn:Hfix.
    + intros [= <- <-]. by eapply fix_keeps_selection.
    + pose proof (fix_keeps_selection _ _ _ _ Hfix) as H1.
      destruct b; unfold bind at 1, lift;
        destruct (relative_to f project_root) as [e | rel]; simpl;
        try (unfold raise; by intros [= <- <-]);
        unfold bind at 1, print; simpl; intros Hrest;
        pose proof (IH _ _ _ _ _ Hrest) as H2; simpl in H2;
        intros q; destruct (H1 q), (H2 q); split; congruence.
Qed.

(** ** Extensions *)

Lemma rfind_None c s : rfind c s = None → str_contains c s = false.
Proof.
  induction s as [| a s IH]; simpl; [done |].
  destruct (rfind c s); [done |]. destruct (Ascii.eqb a c); [done |].
  intros _. by apply IH.
Qed.

Lemma rfind_drop c s i :
  rfind c s = Some i →
  ∃ rest, str_drop i s = String c rest ∧ str_contains c rest = false.
Proof.
  revert i. induction s as [| a s IH]; intros i; simpl; [done |].
  destruct (rfind c s) as [j |] eqn:Hr.
  - intros [= <-]. simpl. by apply IH.
  - destruct (Ascii.eqb_spec a c) as [-> | _]; [| done].
    intros [= <-]. exists s. split; [done | by apply rfind_None].
Qed.

Lemma lower_ascii_dot a : Ascii.eqb (lower_ascii a) "." = Ascii.eqb a ".".
Proof. by destruct a as [[] [] [] [] [] [] [] []]. Qed.

Lemma lower_contains_dot s : str_contains "." (lower s) = str_contains "." s.
Proof.
  induction s as [| a s IH]; simpl; [done |]. by rewrite lower_ascii_dot, IH.
Qed.

(** A suffix is empty or a dot followed by a non-empty text without dots:
    of a name with several dots only the last piece counts. *)
Lemma suffix_has_one_dot p :
  suffix p = "" ∨
  ∃ rest, suffix p = String "." rest ∧ rest ≠ "" ∧ str_contains "." rest = false.
Proof.
  unfold suffix, suffix_of_name.
  destruct (rfind "." (name p)) as [i |] eqn:Hr; [| by left].
  destruct (0 <? i)%nat eqn:H0; [| by left].
  destruct (i <? String.length (name p) - 1)%nat eqn:H1; [| by left].
  right. simpl. destruct (rfind_drop _ _ _ Hr) as (rest & Hrest & Hno).
  exists rest. repeat split; [done | | done].
  intros ->. apply Nat.ltb_lt in H1.
  pose proof (rfind_lt _ _ _ Hr) as Hlt.
  pose proof (str_drop_length i (name p)) as Hlen.
  rewrite Hrest in Hlen. simpl in Hlen. lia.
Qed.

(** X6. No file is classified through the [.cmake.in] entry of the extension
    table, and a name that is a dot followed by text without dots, such as
    [.gitignore], has no suffix at all: both are left to the later tests. *)
Theorem compound_and_dotfile_extensions :
  (∀ p, lower (suffix p) ≠ ".cmake.in") ∧
  (∀ rest, str_contains "." rest = false → suffix_of_name (String "." rest) = "").
Proof.
  split.
  - intros p Heq. destruct (suffix_has_one_dot p) as [Hs | (rest & Hs & _ & Hno)];
      rewrite Hs in Heq; [done |].
    simpl in Heq. injection Heq as Heq.
    rewrite <- lower_contains_dot, Heq in Hno. done.
  - intros rest Hno. unfold suffix_of_name. simpl.
    destruct (rfind "." rest) as [j |] eqn:Hr.
    + destruct (rfind_drop _ _ _ Hr) as (r & Hdrop & _).
      assert (Hc : str_contains "." (str_drop j rest) = false)
        by (by apply str_contains_drop).
      rewrite Hdrop in Hc. simpl in Hc. done.
    + done.
Qed.

(** ** Sorted output *)

Lemma path_leb_total a b : path_leb a b = false → path_leb b a = true.
Proof.
  revert b. induction a as [| x a IH]; intros [| y b]; simpl; try done.
  rewrite (String.compare_antisym x y).
  destruct (String.compare y x); simpl; [apply IH | done | done].
Qed.

Lemma insert_sorted_Sorted x l :
  Sorted (λ a b, path_leb a b = true) l →
  Sorted (λ a b, path_leb a b = true) (insert_sorted x l).
Proof.
  induction 1 as [| y l Hl IH Hhd]; simpl.
  - by repeat constructor.
  - destruct (path_leb x y) eqn:Hxy.
    + constructor; [by constructor | by constructor].
    + constructor; [exact IH |].
      inversion Hhd as [| z l' Hyz]; subst; simpl.
      * constructor. by apply path_leb_total.
      * destruct (path_leb x z); constructor; [by apply path_leb_total | done].
Qed.

Lemma sorted_Sorted l : Sorted (λ a b, path_leb a b = true) (sorted l).
Proof.
  induction l as [| x l IH]; simpl; [constructor | by apply insert_sorted_Sorted].
Qed.

(** X7. [discover_files] returns its paths in ascending order, part by part. *)
Theorem discover_files_sorted fnmatch st project_root tree include exclude :
  Sorted (λ a b, path_leb a b = true)
    (discover_files fnmatch st project_root tree include exclude).
Proof. unfold discover_files. apply sorted_Sorted. Qed.

(** ** [check_files] and the backup path *)

Lemma filter_partition_Permutation (st : fs) (files : list path) :
  files ≡ₚ filter (λ f, has_eof_newline st f = true) files
           ++ filter (λ f, has_eof_newline st f = false) files.
Proof.
  induction files as [| f files IH]; [done |].
  rewrite !filter_cons. destruct (has_eof_newline st f) eqn:Hf; simpl.
  - destruct (decide (true = true)); [| done].
    destruct (decide (true = false)); [done |]. simpl. by constructor.
  - destruct (decide (false = true)); [done |].
    destruct (decide (false = false)); [| done].
    rewrite <- Permutation_middle. by constructor.
Qed.

(** X8. [check_files] never raises on files below the project root, never
    touches the file system, and splits its input in two: every file lands
    in exactly one of the two lists, the first holding the files that pass
    [has_eof_newline] and the second the others; without [show_details]
    it prints nothing, whatever the files. *)
Theorem check_files_partitions project_root files sd s :
  (sd = true → Forall (below project_root) files) →
  ∃ good bad out,
    check_files project_root files sd s
      = (inr (good, bad), State (st_fs s) (st_out s ++ out)) ∧
    files ≡ₚ good ++ bad ∧
    Forall (λ f, has_eof_newline (st_fs s) f = true) good ∧
    Forall (λ f, has_eof_newline (st_fs s) f = false) bad ∧
    (sd = false → out = []).
Proof.
  intros Hbelow. rewrite (check_files_run _ _ _ _ Hbelow).
  eexists _, _, _. split; [reflexivity |].
  split; [apply filter_partition_Permutation |].
  split; [| split].
  - apply Forall_forall. by intros f [Hf _]%list_elem_of_filter.
  - apply Forall_forall. by intros f [Hf _]%list_elem_of_filter.
  - by intros ->.
Qed.

(** X9. The backup of a file with a proper name goes next to it under the
    whole name followed by [.bak] (the old extension is kept, not
    replaced), which is never the path of the file itself. *)
Theorem backup_path_keeps_extension p :
  name p ≠ "" →
  str_contains "/" (name p) = false →
  with_suffix p (suffix p +:+ ".bak") = inr (parent p ++ [name p +:+ ".bak"]) ∧
  parent p ++ [name p +:+ ".bak"] ≠ p.
Proof.
  intros Hname Hslash. split.
  - by rewrite (with_suffix_bak p Hname Hslash).
  - by apply backup_path_ne.
Qed.

(** ** The command line beyond [--check] *)

Section CommandLine.

Variable fnmatch : string → string → bool.

Ltac solve_prints :=
  repeat first
    [ apply prints_ret | apply prints_print | apply prints_when | apply prints_seq ].

(** X10. Without the marker file at the project root, [main] prints the error
    and exits with status 1, whatever the arguments, [--quiet] included. *)
Theorem main_missing_marker e a s :
  let project_root := parent (parent (script_path e)) in
  exists_ (st_fs s) (joinpath project_root "CMakeLists.txt") = false →
  main fnmatch e a s =
    (inl (SystemExit 1),
     State (st_fs s)
       (st_out s ++ ["Error: Project root not found. Expected CMakeLists.txt at "
                     +:+ str_of_path project_root])).
Proof.
  intros project_root Hmarker. unfold main. fold project_root.
  unfold bind at 1. unfold get_fs at 1. rewrite Hmarker. simpl.
  unfold bind at 1. unfold bind at 1. unfold print at 1. simpl.
  by destruct s.
Qed.

(** X11. When file selection returns no file, [main] prints "No files found
    matching criteria", under [--quiet] too, and exits with status 0, in
    either mode. *)
Theorem main_no_files e a s s1 :
  let project_root := parent (parent (script_path e)) in
  exists_ (st_fs s) (joinpath project_root "CMakeLists.txt") = true →
  select_files fnmatch e a project_root s = (inr [], s1) →
  main fnmatch e a s =
    (inl (SystemExit 0),
     State (st_fs s)
       (st_out s
        ++ (if quiet a then []
            else ["End-of-file newline checker for Inference Systems Lab";
                  "Project root: " +:+ str_of_path project_root; ""])
        ++ ["No files found matching criteria"])).
Proof.
  intros project_root Hmarker Hsel. destruct s as [st out].
  unfold main. fold project_root.
  unfold bind at 1. unfold get_fs at 1. simpl in *. rewrite Hmarker. simpl.
  unfold bind at 1. simpl. unfold bind at 1.
  destruct (quiet a); simpl.
  - unfold bind at 1.
    rewrite (select_files_output _ _ _ _ _ _ out _ _ Hsel). simpl.
    unfold bind, print, sys_exit, raise. simpl. done.
  - unfold bind at 1 2 3, print at 1 2 3. simpl. unfold bind at 1.
    rewrite (select_files_output _ _ _ _ _ _
               (((out ++ ["End-of-file newline checker for Inference Systems Lab"])
                 ++ ["Project root: " +:+ str_of_path project_root]) ++ [""]) _ _ Hsel).
    simpl. unfold bind, print, sys_exit, raise. simpl.
    by rewrite <- !app_assoc.
Qed.

(** X12. In [--fix] mode, when every selected file is already compliant, nothing
    is written, the line "All n files already have EOF newlines" is
    printed, under [--quiet] too, and the process exits with status 0. *)
Theorem fix_mode_all_compliant e a s files s1 :
  let project_root := parent (parent (script_path e)) in
  check a = false →
  fix_ a = true →
  exists_ (st_fs s) (joinpath project_root "CMakeLists.txt") = true →
  select_files fnmatch e a project_root s = (inr files, s1) →
  files ≠ [] →
  Forall (λ f, has_eof_newline (st_fs s) f = true) files →
  ∃ out,
    main fnmatch e a s =
      (inl (SystemExit 0),
       State (st_fs s)
         (st_out s ++ out
          ++ ["✅ All " +:+ pretty (length files) +:+ " files already have EOF newlines"])).
Proof.
  intros project_root Hcheck Hfix Hmarker Hsel Hne Hall. destruct s as [st out0].
  unfold main. fold project_root.
  unfold bind at 1. unfold get_fs at 1. simpl in *. rewrite Hmarker. simpl.
  unfold bind at 1. simpl. unfold bind at 1.
  edestruct (prints_when (negb (quiet a))) as [out1 E1]; last rewrite E1.
  { solve_prints. }
  unfold bind at 1. simpl.
  rewrite (select_files_output _ _ _ _ _ _ (out0 ++ out1) _ _ Hsel).
  rewrite (bool_decide_eq_false_2 _ Hne). simpl. unfold bind at 1. simpl.
  unfold bind at 1.
  edestruct (prints_when (negb (quiet a))) as [out2 E2]; last rewrite E2.
  { solve_prints. }
  simpl. rewrite Hcheck, Hfix.
  unfold run_fix_action, bind at 1.
  rewrite check_files_run by done. simpl.
  rewrite (bool_decide_eq_true_2 _ (proj2 (all_compliant_filter _ _) Hall)).
  exists (out1 ++ out2). unfold bind, print, sys_exit, raise. simpl.
  by rewrite app_nil_r, <- !app_assoc.
Qed.

(** Where the list file named by [--filter-from-file] is looked for. *)
Lemma select_files_unreadable_list e a project_root st out list_name err :
  filter_from_file a = Some list_name →
  open_rb st
    (if is_absolute (path_of_string list_name) then path_of_string list_name
     else cwd e ++ path_of_string list_name) = inl err →
  select_files fnmatch e a project_root (State st out) =
    (inl (SystemExit 1),
     State st (out ++ ["Error reading file list from "
                       +:+ str_of_path (path_of_string list_name)
                       +:+ ": " +:+ str_of_exn err])).
Proof.
  intros Hlist Hopen. unfold select_files. rewrite Hlist.
  unfold try_except_Exception, read_lines, read_file, files_from_list, get_fs,
    print, sys_exit, raise, bind, ret. simpl. rewrite Hopen.
  by destruct (open_rb_oserror _ _ _ Hopen) as (c & q & ->).
Qed.

(** X13. When the list file cannot be opened, [main] ends with one line that
    starts with "Error reading file list from " and exits with status 1,
    under [--quiet] too; no file is touched. *)
Theorem main_unreadable_list e a s list_name err :
  let project_root := parent (parent (script_path e)) in
  exists_ (st_fs s) (joinpath project_root "CMakeLists.txt") = true →
  filter_from_file a = Some list_name →
  open_rb (st_fs s)
    (if is_absolute (path_of_string list_name) then path_of_string list_name
     else cwd e ++ path_of_string list_name) = inl err →
  ∃ out msg,
    main fnmatch e a s =
      (inl (SystemExit 1),
       State (st_fs s)
         (st_out s ++ out ++ ["Error reading file list from " +:+ msg])).
Proof.
  intros project_root Hmarker Hlist Hopen. destruct s as [st out0].
  unfold main. fold project_root.
  unfold bind at 1. unfold get_fs at 1. simpl in *. rewrite Hmarker. simpl.
  unfold bind at 1. simpl. unfold bind at 1.
  edestruct (prints_when (negb (quiet a))) as [out1 E1]; last rewrite E1.
  { solve_prints. }
  unfold bind at 1. simpl.
  rewrite (select_files_unreadable_list _ _ _ _ _ _ _ Hlist Hopen).
  eexists out1, _. by rewrite <- app_assoc.
Qed.

(** X14. Every file selected through a list file exists and is checkable: the
    listed paths that do not exist, or are not checkable, are left out
    without a word. *)
Theorem listed_files_exist_and_checkable e a project_root s files s1 list_name :
  filter_from_file a = Some list_name →
  select_files fnmatch e a project_root s = (inr files, s1) →
  Forall (λ f, exists_ (st_fs s) f = true ∧ should_check_file (st_fs s) f = true) files.
Proof.
  intros Hlist. unfold select_files. rewrite Hlist.
  unfold try_except_Exception, read_lines, read_file, files_from_list, get_fs,
    print, sys_exit, raise, bind, ret. simpl.
  match goal with
  | |- context [open_rb ?st ?p] => destruct (open_rb st p) as [err | content]
  end; simpl.
  - destruct err; simpl; intros; simplify_eq.
  - intros [= <- _]. apply Forall_forall. intros f Hf.
    apply list_elem_of_omap in Hf as (line & _ & Hf).
    match type of Hf with
    | (if ?c then _ else _) = _ => destruct c eqn:Hc
    end; [| done].
    simplify_eq. by apply andb_true_iff in Hc.
Qed.

(** The [--fix] action without backup, on files below the project root,
    ends in [sys.exit] with 0 or 1, and with 0 only when every file is
    compliant in the file system it leaves. *)
Lemma run_fix_action_exits a project_root files s :
  backup a = false →
  Forall (below project_root) files →
  ∃ code s',
    run_fix_action a project_root files s = (inl (SystemExit code), s') ∧
    (code = 0 ∨ code = 1)%Z ∧
    (code = 0%Z → Forall (λ f, has_eof_newline (st_fs s') f = true) files) ∧
    (∀ q, should_check_file (st_fs s') q = should_check_file (st_fs s) q ∧
          exists_ (st_fs s') q = exists_ (st_fs s) q).
Proof.
  intros Hbackup Hbelow. destruct s as [st out0].
  unfold run_fix_action, bind at 1. rewrite check_files_run by done. simpl.
  set (bad := filter (λ f, has_eof_newline st f = false) files).
  destruct (decide (bad = [])) as [Hnil | Hnil].
  - rewrite (bool_decide_eq_true_2 _ Hnil).
    eexists 0%Z, _. split; [unfold bind, print, sys_exit, raise; simpl; reflexivity |].
    split; [by left |]. split; [| done]. intros _. simpl. by apply all_compliant_filter.
  - rewrite (bool_decide_eq_false_2 _ Hnil). unfold bind at 1.
    edestruct (prints_when (negb (quiet a))) as [out1 E1]; last rewrite E1.
    { solve_prints. }
    unfold bind at 1. rewrite Hbackup. simpl.
    assert (Hbad : Forall (below project_root) bad).
    { unfold bad. rewrite Forall_forall in Hbelow |- *.
      intros f [_ Hf]%list_elem_of_filter. by apply Hbelow. }
    destruct (fix_files_from_spec project_root bad Hbad 0%nat 0%nat
                (State st ((out0 ++ []) ++ out1)))
      as (ok & err & s2 & Hrun & _ & _ & Hmono & Hall).
    pose proof (fix_files_from_keeps_selection _ _ _ _ _ _ _ Hrun) as Hsel.
    unfold fix_files. rewrite Hrun. simpl in Hmono, Hsel.
    cbv beta iota zeta. unfold fst, snd.
    destruct (0 <? err)%nat eqn:Herr.
    + edestruct (exits_seq (A := unit) 1) as [out Hout]; last first.
      { eexists 1%Z, _. split; [exact Hout |]. split; [by right |].
        split; [done | exact Hsel]. }
      * simpl. apply exits_seq; [solve_prints | apply exits_sys_exit].
      * solve_prints.
    + edestruct (exits_seq (A := unit) 0) as [out Hout]; last first.
      { eexists 0%Z, _. split; [exact Hout |]. split; [by left |].
        split; [| exact Hsel].
        intros _. simpl. apply Nat.ltb_ge in Herr.
        assert (Hz : err = 0%nat) by lia. specialize (Hall Hz).
        rewrite Forall_forall in Hall |- *. intros f Hf.
        destruct (has_eof_newline st f) eqn:Hst; [by apply Hmono |].
        apply Hall. by apply list_elem_of_filter. }
      * simpl. apply exits_seq; [solve_prints |].
        apply exits_seq; [solve_prints | apply exits_sys_exit].
      * solve_prints.
Qed.

(** [main] in [--fix] mode without [--backup], on selected files below the
    project root. *)
Lemma fix_mode_spec e a s files s1 :
  let project_root := parent (parent (script_path e)) in
  check a = false →
  fix_ a = true →
  backup a = false →
  exists_ (st_fs s) (joinpath project_root "CMakeLists.txt") = true →
  select_files fnmatch e a project_root s = (inr files, s1) →
  Forall (below project_root) files →
  ∃ code s',
    main fnmatch e a s = (inl (SystemExit code), s') ∧
    (code = 0 ∨ code = 1)%Z ∧
    (code = 0%Z → Forall (λ f, has_eof_newline (st_fs s') f = true) files) ∧
    (∀ q, should_check_file (st_fs s') q = should_check_file (st_fs s) q ∧
          exists_ (st_fs s') q = exists_ (st_fs s) q).
Proof.
  intros project_root Hcheck Hfix Hbackup Hmarker Hsel Hbelow. destruct s as [st out0].
  unfold main. fold project_root.
  unfold bind at 1. unfold get_fs at 1. simpl in *. rewrite Hmarker. simpl.
  unfold bind at 1. simpl. unfold bind at 1.
  edestruct (prints_when (negb (quiet a))) as [out1 E1]; last rewrite E1.
  { solve_prints. }
  unfold bind at 1. simpl.
  rewrite (select_files_output _ _ _ _ _ _ (out0 ++ out1) _ _ Hsel).
  destruct (decide (files = [])) as [-> | Hne].
  - rewrite (bool_decide_eq_true_2 ([] = []) eq_refl). simpl.
    eexists 0%Z, _. split; [unfold bind, print, sys_exit, raise; simpl; reflexivity |].
    split; [by left |]. split; [by intros _ | done].
  - rewrite (bool_decide_eq_false_2 _ Hne). simpl. unfold bind at 1. simpl.
    unfold bind at 1.
    edestruct (prints_when (negb (quiet a))) as [out2 E2]; last rewrite E2.
    { solve_prints. }
    simpl. rewrite Hcheck, Hfix.
    destruct (run_fix_action_exits a project_root files
                (State st ((out0 ++ out1) ++ out2)) Hbackup Hbelow)
      as (code & s' & Hrun & Hcode & Hall & Hkeep).
    by exists code, s'.
Qed.

(** X15. After [--fix] without [--backup], on selected files below the project
    root (as discovery always gives), exit status 0 means that every
    selected file is compliant in the file system the run leaves; the only
    other status is 1. *)
Theorem fix_mode_exit_zero_means_compliant e a s files s1 :
  let project_root := parent (parent (script_path e)) in
  check a = false →
  fix_ a = true →
  backup a = false →
  exists_ (st_fs s) (joinpath project_root "CMakeLists.txt") = true →
  select_files fnmatch e a project_root s = (inr files, s1) →
  Forall (below project_root) files →
  ∃ code s',
    main fnmatch e a s = (inl (SystemExit code), s') ∧
    (code = 0 ∨ code = 1)%Z ∧
    (code = 0%Z → Forall (λ f, has_eof_newline (st_fs s') f = true) files).
Proof.
  intros project_root Hcheck Hfix Hbackup Hmarker Hsel Hbelow.
  destruct (fix_mode_spec e a s files s1 Hcheck Hfix Hbackup Hmarker Hsel Hbelow)
    as (code & s' & Hrun & Hcode & Hall & _).
  by exists code, s'.
Qed.

(** *** Discovery mode, end to end *)

(** Every path [discover_files] returns lies below the project root, so
    [relative_to] accepts it. *)
Lemma discover_files_below st project_root tree include exclude :
  Forall (below project_root)
    (discover_files fnmatch st project_root tree include exclude).
Proof.
  apply Forall_forall. intros p (dirs & f & -> & _)%discover_files_iff.
  unfold below. rewrite strip_prefix_app. eauto.
Qed.

(** [discover_files] looks at the file system through [should_check_file]
    only. *)
Lemma discover_files_selection st st' project_root tree include exclude :
  (∀ q, should_check_file st' q = should_check_file st q) →
  discover_files fnmatch st' project_root tree include exclude
  = discover_files fnmatch st project_root tree include exclude.
Proof.
  intros H. unfold discover_files. f_equal. apply flat_map_ext.
  intros [r fns]. f_equal. apply list_filter_iff. intros f.
  unfold keep_file. by rewrite H.
Qed.

Lemma select_files_discovery e a project_root s :
  filter_from_file a = None →
  select_files fnmatch e a project_root s =
    (inr (discover_files fnmatch (st_fs s) project_root (tree e)
            (if truthy (filter_ a) then Some [default "" (filter_ a)] else None)
            (if truthy (exclude a)
             then Some (split_on (λ c, Ascii.eqb c ",") (default "" (exclude a)))
             else None)),
     s).
Proof.
  intros Hlist. unfold select_files. rewrite Hlist. by destruct s.
Qed.

(** X16. Without a list file, a [--check] run never ends in a traceback: once
    the project marker is there it exits with status 0 when every
    discovered file is compliant and with status 1 otherwise, and leaves
    the file system alone. *)
Theorem check_discovery_exit_status e a s :
  let project_root := parent (parent (script_path e)) in
  filter_from_file a = None →
  check a = true →
  exists_ (st_fs s) (joinpath project_root "CMakeLists.txt") = true →
  ∃ files out,
    select_files fnmatch e a project_root s = (inr files, s) ∧
    main fnmatch e a s =
      (inl (SystemExit
              (if bool_decide (Forall (λ f, has_eof_newline (st_fs s) f = true) files)
               then 0 else 1)),
       State (st_fs s) (st_out s ++ out)).
Proof.
  intros project_root Hlist Hcheck Hmarker.
  pose proof (select_files_discovery e a project_root s Hlist) as Hsel.
  destruct (check_mode_exit_status fnmatch e a s _ s Hcheck Hmarker Hsel
              (discover_files_below _ _ _ _ _)) as [out Hmain].
  eexists _, out. split; [exact Hsel | exact Hmain].
Qed.

(** X17. A [--fix] run without [--backup] and without a list file that exits
    with status 0 leaves a project on which [--check], with the same
    [--filter] and [--exclude], exits with status 0. *)
Theorem fix_then_check_passes e a a' s s' :
  filter_from_file a = None → check a = false → fix_ a = true → backup a = false →
  filter_from_file a' = None → check a' = true →
  filter_ a' = filter_ a → exclude a' = exclude a →
  main fnmatch e a s = (inl (SystemExit 0), s') →
  ∃ out, main fnmatch e a' s' = (inl (SystemExit 0), State (st_fs s') (st_out s' ++ out)).
Proof.
  intros Hlist Hcheck Hfix Hbackup Hlist' Hcheck' Hfilter' Hexclude' Hmain.
  set (project_root := parent (parent (script_path e))).
  destruct (exists_ (st_fs s) (joinpath project_root "CMakeLists.txt")) eqn:Hmarker.
  2: { exfalso. revert Hmain. unfold main. fold project_root.
       unfold bind at 1. unfold get_fs at 1. rewrite Hmarker. simpl.
       unfold bind at 1. unfold bind at 1. unfold print at 1. simpl. done. }
  pose proof (select_files_discovery e a project_root s Hlist) as Hsel.
  destruct (fix_mode_spec e a s _ s Hcheck Hfix Hbackup Hmarker Hsel
              (discover_files_below _ _ _ _ _))
    as (code & s2 & Hrun & _ & Hall & Hkeep).
  rewrite Hrun in Hmain. injection Hmain as -> ->. specialize (Hall eq_refl).
  pose proof (select_files_discovery e a' project_root s' Hlist') as Hsel'.
  rewrite Hfilter', Hexclude' in Hsel'.
  rewrite (discover_files_selection (st_fs s) (st_fs s')) in Hsel'
    by (intros q; apply Hkeep).
  assert (Hmarker' : exists_ (st_fs s') (joinpath project_root "CMakeLists.txt") = true).
  { by rewrite (proj2 (Hkeep _)). }
  destruct (check_mode_exit_status fnmatch e a' s' _ s' Hcheck' Hmarker' Hsel'
              (discover_files_below _ _ _ _ _)) as [out Hmain'].
  exists out. rewrite Hmain'. by rewrite (bool_decide_eq_true_2 _ Hall).
Qed.

(** *** What [--filter] and [--exclude] can do *)

(** X18. Patterns only narrow discovery: whatever is returned with include and
    exclude patterns is returned without any, given that [*] matches
    every name. The built-in excludes cannot be switched off. *)
Theorem filters_only_narrow st project_root tree include exclude p :
  (∀ s, fnmatch s "*" = true) →
  p ∈ discover_files fnmatch st project_root tree include exclude →
  p ∈ discover_files fnmatch st project_root tree None None.
Proof.
  intros Hstar. rewrite !discover_files_iff.
  assert (Hex : ∀ x, any_fnmatch fnmatch x (exclude_list exclude) = false →
                     any_fnmatch fnmatch x (exclude_list None) = false).
  { intros x. unfold any_fnmatch, exclude_list. rewrite existsb_app.
    by intros [_ ?]%orb_false_iff. }
  intros (dirs & f & -> & Htree & Hdirs & Hf & _ & Hchk).
  exists dirs, f. split; [done |]. split; [done |].
  split; [by eapply Forall_impl |]. split; [by apply Hex |]. split; [| done].
  exists "*". split; [by left | left; apply Hstar].
Qed.

End CommandLine.

(** ** The further properties at work on the sample project *)

Ltac compute_below := repeat constructor; vm_compute; eauto.

Lemma check_files_partitions_witness :
  Forall (below sample_root) [sample_root ++ ["a.txt"]; sample_root ++ ["b.py"]] ∧
  ∃ good bad out,
    check_files sample_root [sample_root ++ ["a.txt"]; sample_root ++ ["b.py"]] true
      (State sample_fs [])
    = (inr (good, bad), State sample_fs out) ∧
    [sample_root ++ ["a.txt"]; sample_root ++ ["b.py"]] ≡ₚ good ++ bad.
Proof.
  assert (H : Forall (below sample_root)
                [sample_root ++ ["a.txt"]; sample_root ++ ["b.py"]]) by compute_below.
  split; [exact H |].
  destruct (check_files_partitions sample_root _ true (State sample_fs []) (λ _, H))
    as (good & bad & out & Hrun & Hperm & _).
  by exists good, bad, out.
Defined.

Lemma check_discovery_exit_status_witness :
  let a := Args true false None None None false false false in
  exists_ sample_fs (joinpath sample_root "CMakeLists.txt") = true ∧
  ∃ files out,
    select_files simple_fnmatch sample_env a sample_root (State sample_fs [])
      = (inr files, State sample_fs []) ∧
    main simple_fnmatch sample_env a (State sample_fs []) =
      (inl (SystemExit
              (if bool_decide (Forall (λ f, has_eof_newline sample_fs f = true) files)
               then 0 else 1)),
       State sample_fs ([] ++ out)).
Proof.
  intros a.
  assert (Hmarker : exists_ sample_fs (joinpath sample_root "CMakeLists.txt") = true)
    by (vm_compute; reflexivity).
  split; [exact Hmarker |].
  exact (check_discovery_exit_status simple_fnmatch sample_env a (State sample_fs [])
           eq_refl eq_refl Hmarker).
Defined.

Lemma fix_success_makes_compliant_witness :
  fix_eof_newline (sample_root ++ ["b.py"]) false (State sample_fs [])
    = (inr true,
       State (<[sample_root ++ ["b.py"] := text_file [x78; x3d; x31; x0a]]> sample_fs) []) ∧
  has_eof_newline
    (<[sample_root ++ ["b.py"] := text_file [x78; x3d; x31; x0a]]> sample_fs)
    (sample_root ++ ["b.py"]) = true.
Proof.
  assert (H : fix_eof_newline (sample_root ++ ["b.py"]) false (State sample_fs [])
              = (inr true,
                 State (<[sample_root ++ ["b.py"] := text_file [x78; x3d; x31; x0a]]>
                          sample_fs) []))
    by (vm_compute; reflexivity).
  split; [exact H |].
  exact (proj1 (fix_success_makes_compliant _ _ _ _ H)).
Defined.


Lemma fix_touches_file_and_backup_only_witness :
  st_fs (fix_eof_newline (sample_root ++ ["b.py"]) true (State sample_fs [])).2
    !! (sample_root ++ ["a.txt"])
  = sample_fs !! (sample_root ++ ["a.txt"]).
Proof.
  apply (fix_touches_file_and_backup_only (sample_root ++ ["b.py"]) true
           (State sample_fs [])
           (fix_eof_newline (sample_root ++ ["b.py"]) true (State sample_fs [])).1
           (fix_eof_newline (sample_root ++ ["b.py"]) true (State sample_fs [])).2).
  - by destruct (fix_eof_newline _ _ _).
  - discriminate.
  - vm_compute. discriminate.
Defined.

Lemma fix_noop_on_compliant_witness :
  has_eof_newline sample_fs (sample_root ++ ["a.txt"]) = true ∧
  fix_eof_newline (sample_root ++ ["a.txt"]) false (State sample_fs [])
    = (inr true, State sample_fs []).
Proof.
  assert (H : has_eof_newline sample_fs (sample_root ++ ["a.txt"]) = true)
    by (vm_compute; reflexivity).
  split; [exact H |].
  exact (fix_noop_on_compliant (sample_root ++ ["a.txt"]) (State sample_fs []) H).
Defined.

Lemma fix_files_processes_all_witness :
  Forall (below sample_root) [sample_root ++ ["locked.dat"]; sample_root ++ ["b.py"]] ∧
  ∃ success_count error_count s',
    fix_files sample_root [sample_root ++ ["locked.dat"]; sample_root ++ ["b.py"]] false
      (State sample_fs [])
    = (inr (success_count, error_count), s') ∧
    (success_count + error_count = 2)%nat.
Proof.
  assert (H : Forall (below sample_root)
                [sample_root ++ ["locked.dat"]; sample_root ++ ["b.py"]]) by compute_below.
  split; [exact H |].
  destruct (fix_files_processes_all sample_root _ (State sample_fs []) H)
    as (ok & err & s' & Hrun & Hsum & _).
  by exists ok, err, s'.
Defined.

Lemma compound_and_dotfile_extensions_witness :
  str_contains "." "gitignore" = false ∧ suffix_of_name ".gitignore" = "".
Proof.
  split; [reflexivity |].
  exact (proj2 compound_and_dotfile_extensions "gitignore" eq_refl).
Defined.

Lemma backup_path_keeps_extension_witness :
  name (sample_root ++ ["a.txt"]) ≠ "" ∧
  str_contains "/" (name (sample_root ++ ["a.txt"])) = false ∧
  with_suffix (sample_root ++ ["a.txt"]) (suffix (sample_root ++ ["a.txt"]) +:+ ".bak")
    = inr (sample_root ++ ["a.txt.bak"]).
Proof.
  assert (H1 : name (sample_root ++ ["a.txt"]) ≠ "") by discriminate.
  assert (H2 : str_contains "/" (name (sample_root ++ ["a.txt"])) = false)
    by reflexivity.
  split; [exact H1 |]. split; [exact H2 |].
  exact (proj1 (backup_path_keeps_extension (sample_root ++ ["a.txt"]) H1 H2)).
Defined.

Lemma main_missing_marker_witness :
  let e := Env ["/"; "opt"; "tools"; "check_eof_newline.py"] sample_root sample_tree in
  let a := Args true false None None None false false true in
  exists_ sample_fs ["/"; "opt"; "CMakeLists.txt"] = false ∧
  main simple_fnmatch e a (State sample_fs []) =
    (inl (SystemExit 1),
     State sample_fs ["Error: Project root not found. Expected CMakeLists.txt at /opt"]).
Proof.
  intros e a.
  assert (H : exists_ sample_fs ["/"; "opt"; "CMakeLists.txt"] = false)
    by (vm_compute; reflexivity).
  split; [exact H |].
  exact (main_missing_marker simple_fnmatch e a (State sample_fs []) H).
Defined.

Lemma main_no_files_witness :
  let a := Args true false (Some "*.zzz") None None false false true in
  select_files simple_fnmatch sample_env a sample_root (State sample_fs [])
    = (inr [], State sample_fs []) ∧
  main simple_fnmatch sample_env a (State sample_fs []) =
    (inl (SystemExit 0), State sample_fs ["No files found matching criteria"]).
Proof.
  intros a.
  assert (Hsel : select_files simple_fnmatch sample_env a sample_root (State sample_fs [])
                 = (inr [], State sample_fs []))
    by (vm_compute; reflexivity).
  split; [exact Hsel |].
  apply (main_no_files simple_fnmatch sample_env a (State sample_fs []) (State sample_fs []));
    [vm_compute; reflexivity | exact Hsel].
Defined.

Lemma fix_mode_all_compliant_witness :
  let a := Args false true (Some "*.txt") None None false false true in
  let files := [sample_root ++ ["CMakeLists.txt"]; sample_root ++ ["a.txt"]] in
  select_files simple_fnmatch sample_env a sample_root (State sample_fs [])
    = (inr files, State sample_fs []) ∧
  Forall (λ f, has_eof_newline sample_fs f = true) files ∧
  ∃ out,
    main simple_fnmatch sample_env a (State sample_fs []) =
      (inl (SystemExit 0),
       State sample_fs (out ++ ["✅ All 2 files already have EOF newlines"])).
Proof.
  intros a files.
  assert (Hsel : select_files simple_fnmatch sample_env a sample_root (State sample_fs [])
                 = (inr files, State sample_fs []))
    by (vm_compute; reflexivity).
  assert (Hall : Forall (λ f, has_eof_newline sample_fs f = true) files)
    by (repeat constructor; vm_compute; reflexivity).
  split; [exact Hsel |]. split; [exact Hall |].
  apply (fix_mode_all_compliant simple_fnmatch sample_env a (State sample_fs [])
           files (State sample_fs []) eq_refl eq_refl);
    [vm_compute; reflexivity | exact Hsel | discriminate | exact Hall].
Defined.

Lemma main_unreadable_list_witness :
  let a := Args true false None (Some "missing.txt") None false false true in
  open_rb sample_fs (sample_root ++ ["missing.txt"])
    = inl (OSError ENOENT (sample_root ++ ["missing.txt"])) ∧
  ∃ out msg,
    main simple_fnmatch sample_env a (State sample_fs []) =
      (inl (SystemExit 1),
       State sample_fs (out ++ ["Error reading file list from " +:+ msg])).
Proof.
  intros a.
  assert (H : open_rb sample_fs (sample_root ++ ["missing.txt"])
              = inl (OSError ENOENT (sample_root ++ ["missing.txt"])))
    by (vm_compute; reflexivity).
  split; [exact H |].
  apply (main_unreadable_list simple_fnmatch sample_env a (State sample_fs [])
           "missing.txt" (OSError ENOENT (sample_root ++ ["missing.txt"])));
    [vm_compute; reflexivity | reflexivity | exact H].
Defined.

Lemma listed_files_exist_and_checkable_witness :
  let a := Args true false None (Some "staged.txt") None false false true in
  select_files simple_fnmatch sample_env a sample_root (State stray_fs [])
    = (inr [["/"; "tmp"; "x.txt"]], State stray_fs []) ∧
  Forall (λ f, exists_ stray_fs f = true ∧ should_check_file stray_fs f = true)
    [["/"; "tmp"; "x.txt"]].
Proof.
  intros a.
  assert (Hsel : select_files simple_fnmatch sample_env a sample_root (State stray_fs [])
                 = (inr [["/"; "tmp"; "x.txt"]], State stray_fs []))
    by (vm_compute; reflexivity).
  split; [exact Hsel |].
  exact (listed_files_exist_and_checkable simple_fnmatch sample_env a sample_root
           (State stray_fs []) _ _ "staged.txt" eq_refl Hsel).
Defined.

Lemma fix_mode_exit_zero_means_compliant_witness :
  let a := Args false true None None None false false true in
  let files :=
    [sample_root ++ ["CMakeLists.txt"]; sample_root ++ ["a.txt"]; sample_root ++ ["b.py"];
     sample_root ++ ["notes"]; sample_root ++ ["src"; "c.h"]] in
  select_files simple_fnmatch sample_env a sample_root (State sample_fs [])
    = (inr files, State sample_fs []) ∧
  Forall (below sample_root) files ∧
  ∃ code s',
    main simple_fnmatch sample_env a (State sample_fs []) = (inl (SystemExit code), s') ∧
    (code = 0 ∨ code = 1)%Z ∧
    (code = 0%Z → Forall (λ f, has_eof_newline (st_fs s') f = true) files).
Proof.
  intros a files.
  assert (Hsel : select_files simple_fnmatch sample_env a sample_root (State sample_fs [])
                 = (inr files, State sample_fs []))
    by (vm_compute; reflexivity).
  assert (Hbelow : Forall (below sample_root) files) by compute_below.
  split; [exact Hsel |]. split; [exact Hbelow |].
  apply (fix_mode_exit_zero_means_compliant simple_fnmatch sample_env a
           (State sample_fs []) files (State sample_fs []) eq_refl eq_refl eq_refl);
    [vm_compute; reflexivity | exact Hsel | exact Hbelow].
Defined.

Lemma simple_fnmatch_star s : simple_fnmatch s "*" = true.
Proof.
  unfold simple_fnmatch. induction s as [| a s IH]; [done |].
  simpl in *. exact IH.
Qed.

Lemma fix_then_check_passes_witness :
  let a := Args false true None None None false false true in
  let a' := Args true false None None None false false true in
  let s' := (main simple_fnmatch sample_env a (State sample_fs [])).2 in
  (main simple_fnmatch sample_env a (State sample_fs [])).1 = inl (SystemExit 0) ∧
  ∃ out,
    main simple_fnmatch sample_env a' s'
      = (inl (SystemExit 0), State (st_fs s') (st_out s' ++ out)).
Proof.
  intros a a' s'.
  assert (H1 : (main simple_fnmatch sample_env a (State sample_fs [])).1
               = inl (SystemExit 0))
    by (vm_compute; reflexivity).
  split; [exact H1 |].
  apply (fix_then_check_passes simple_fnmatch sample_env a a' (State sample_fs []) s'
           eq_refl eq_refl eq_refl eq_refl eq_refl eq_refl eq_refl eq_refl).
  unfold s'. revert H1.
  destruct (main simple_fnmatch sample_env a (State sample_fs [])) as [r s2].
  simpl. by intros ->.
Defined.

Lemma filters_only_narrow_witness :
  (sample_root ++ ["a.txt"])
    ∈ discover_files simple_fnmatch sample_fs sample_root sample_tree
        (Some ["*.txt"]) (Some ["src"]) ∧
  (sample_root ++ ["a.txt"])
    ∈ discover_files simple_fnmatch sample_fs sample_root sample_tree None None.
Proof.
  assert (H : (sample_root ++ ["a.txt"])
                ∈ discover_files simple_fnmatch sample_fs sample_root sample_tree
                    (Some ["*.txt"]) (Some ["src"]))
    by compute_elem.
  split; [exact H |].
  exact (filters_only_narrow simple_fnmatch _ _ _ _ _ _ simple_fnmatch_star H).
Defined.
